(** * LimeSDR-XTRX LiteX gateware: composition and two-run build of [limesdr_xtrx.py]

    A shallow embedding of [limesdr_xtrx.py]: the [CRG] clock generator, the
    [BaseSoC] composition ([BaseSoC.__init__], [add_jtag_cpu_debug],
    the [csr_map] table) and the build script [main].

    Python objects that the script mutates ([self], the platform, the bus
    handler) are one record, [SoC], threaded through the composition in
    source order.  Python exceptions are the [Raise] results of the [Py]
    monad.  The script is a client of LiteX, Migen and LitePCIe; the few
    operations of these libraries that the script reads back are embedded
    next to it and are marked "LiteX:", "Migen:" or "argparse:" in their
    doc comments.  What the libraries and the external tools decide on
    their own (where the bus places the SPI flash, the address map of the
    selected CPU, which region the bus refuses, the payload layouts of the
    stream endpoints, the exit status of the firmware build) is a field of
    [Env], over which every statement is quantified.  The identification
    string, the UART flush timer, the pin requests on the platform and the
    PCIe configuration menu do not reach any recorded field and are left
    out, and so are the constants and submodules that [SoCCore.__init__]
    declares for itself: none of them is a boot constant or a module that
    the script names. *)

From Stdlib Require Import ZArith String List Lia DecimalString.
From stdpp Require Import base gmap strings list.

Local Open Scope string_scope.
Local Open Scope list_scope.
Local Open Scope Z_scope.

(** ** Python values, exceptions and results *)

(** The two kinds of value that [args.firmware_flash_offset] can hold: the
    integer default, or the text given on the command line. *)
Inductive PyVal : Type :=
| PyInt (z : Z)
| PyStr (s : string).

Inductive PyExn : Type :=
| TypeError
| KeyError (key : string)
| AttributeError (field : string)
| SoCError (what : string)
| OSError (path : string)
| SystemExit (code : Z)
| ToolError (tool : string).

Inductive Py (A : Type) : Type :=
| Ok (a : A)
| Raise (e : PyExn).
Arguments Ok {A} a.
Arguments Raise {A} e.

Definition py_bind {A B} (m : Py A) (k : A -> Py B) : Py B :=
  match m with
  | Ok a => k a
  | Raise e => Raise e
  end.

Declare Scope py_scope.
Delimit Scope py_scope with py.
Notation "x <- m ;; k" := (py_bind m (fun x => k))
  (at level 100, m at next level, right associativity) : py_scope.
Local Open Scope py_scope.

Definition succeeded {A} (m : Py A) : bool :=
  match m with Ok _ => true | Raise _ => false end.

(** Python's [int + x]: defined on integers, [TypeError] on a string. *)
Definition int_add (a : Z) (b : PyVal) : Py Z :=
  match b with
  | PyInt z => Ok (a + z)
  | PyStr _ => Raise TypeError
  end.

(** [d[key]] on a dict. *)
Definition getitem {V} (d : gmap string V) (key : string) : Py V :=
  match d !! key with
  | Some v => Ok v
  | None => Raise (KeyError key)
  end.

(** ** Data of the composed system *)

(** LiteX: [SoCRegion], with the fields the script sets. *)
Record SoCRegion : Type := mkRegion {
  origin : Z;
  size   : Z;
  linker : bool
}.

(** Migen: a [ClockDomain]; [cd_source] names the domain whose clock feeds
    the PLL that drives it, [None] for a clock that enters from outside. *)
Record ClockDomain : Type := mkClockDomain {
  cd_name   : string;
  cd_freq   : option Z;
  cd_source : option string
}.

(** A period constraint on a clock, in nanoseconds, kept as the quotient
    [pc_num / pc_den] that the script writes ([1e9/20e6]). *)
Record PeriodConstraint : Type := mkPeriod {
  pc_clock : string;
  pc_num   : Z;
  pc_den   : Z
}.

(** LiteX: a stream endpoint is declared by its payload and parameter
    layouts; [valid], [ready], [first] and [last] come with every endpoint. *)
Record Endpoint : Type := mkEndpoint {
  ep_name    : string;
  ep_payload : list string;
  ep_param   : list string
}.

Definition ep_fields (e : Endpoint) : list string :=
  ["valid"; "ready"; "first"; "last"] ++ ep_payload e ++ ep_param e.

(** One [producer.connect(consumer, keep=...)] of the script. *)
Record StreamLink : Type := mkLink {
  producer  : Endpoint;
  consumer  : Endpoint;
  keep      : gset string;
  connected : list string
}.

(** A statement of [self.comb]: a signal assignment, or the assignments of
    one stream connection. *)
Inductive Comb : Type :=
| Assign (lhs rhs : string)
| Connect (l : StreamLink).

Inductive Platform : Type :=
| FairwavesXTRX (variant : string)
| LimeSDRXTRX.

Record SoC : Type := mkSoC {
  platform               : Platform;
  mem_map                : gmap string Z;
  regions                : gmap string SoCRegion;
  constants              : gmap string Z;
  csr_locs               : list (string * Z);
  modules                : list string;
  slaves                 : list string;
  main_ram_init          : list Z;
  cpu_debug              : bool;
  clock_domains          : list ClockDomain;
  period_constraints     : list PeriodConstraint;
  false_paths            : list (string * string);
  pre_placement_commands : list string;
  comb                   : list Comb
}.

(** ** The peripheral-index table *)

(** [SoCCore.csr_map] as the class body writes it. *)
Definition csr_map : list (string * Z) :=
  [ ("uart", 0); ("icap", 1); ("flash", 2); ("xadc", 3); ("dna", 4);
    ("pcie_phy", 10); ("pcie_msi", 11); ("pcie_dma0", 12);
    ("i2c0", 20); ("i2c1", 21);
    ("analyzer", 30) ].

(** ** The world outside the script *)

(** What the libraries and the external tools decide.  The first group is
    read by the composition, the second by the build script. *)
Record Env : Type := mkEnv {
  (** LiteX: [SoCCore.mem_map] once the CPU has been selected. *)
  cpu_mem_map : gmap string Z;
  (** LiteX: the regions [SoCCore.__init__] commits besides [main_ram]
      (given whether a CPU is present). *)
  core_regions : bool -> gmap string SoCRegion;
  (** LiteX: the bus slaves that [SoCCore.__init__] registers besides
      [main_ram] (given whether a CPU is present). *)
  core_slaves : bool -> list string;
  (** LiteX: the origin, overlap and address-width checks of the bus. *)
  bus_accepts : gmap string SoCRegion -> string -> SoCRegion -> bool;
  (** LiteX: where the bus places the SPI flash, and the flash chip's size. *)
  spiflash_origin : Z;
  spiflash_size : Z;
  (** LiteX: the constants that [add_spi_flash] declares, each named after
      the prefix [SPIFLASH_]; a text value is kept as [0]. *)
  spiflash_constants : list (string * Z);
  (** LiteX: [get_mem_data(path, endianness="little")] at the time of the
      finalize run; it raises when the file cannot be read. *)
  get_mem_data : string -> Py (list Z);
  (** LitePCIe and [gateware.LimeTop]: payload layouts of the DMA endpoints. *)
  pcie_dma0_payload : list string;
  lime_top_dma_rx_payload : list string;
  lime_top_dma_tx_payload : list string;
  (** Builder: directory names, and whether [Builder.build] raises in a run. *)
  output_dir : string;
  gateware_dir : string;
  build_name : string;
  builder_raises : nat -> bool;
  (** What [os.system] returns for the firmware [make]: on Linux the wait
      status, 256 times the exit code of a process that exits. *)
  make_status : Z;
  (** Whether the driver generator or the programmer raise. *)
  driver_raises : bool;
  programmer_raises : bool
}.

(** ** Library operations on the composed system *)

Section Composition.

Variable env : Env.

(** [self.<name> = module]. *)
Definition add_module (name : string) (s : SoC) : SoC :=
  mkSoC (platform s) (mem_map s) (regions s) (constants s) (csr_locs s)
        (modules s ++ [name]) (slaves s) (main_ram_init s) (cpu_debug s)
        (clock_domains s) (period_constraints s) (false_paths s)
        (pre_placement_commands s) (comb s).

Definition set_regions (r : gmap string SoCRegion) (s : SoC) : SoC :=
  mkSoC (platform s) (mem_map s) r (constants s) (csr_locs s)
        (modules s) (slaves s) (main_ram_init s) (cpu_debug s)
        (clock_domains s) (period_constraints s) (false_paths s)
        (pre_placement_commands s) (comb s).

(** LiteX: [bus.add_region(name, region)] refuses a name that is already a
    region, then applies the checks of the bus. *)
Definition add_region (name : string) (r : SoCRegion) (s : SoC) : Py SoC :=
  match regions s !! name with
  | Some _ => Raise (SoCError name)
  | None =>
      if bus_accepts env (regions s) name r
      then Ok (set_regions (<[name := r]> (regions s)) s)
      else Raise (SoCError name)
  end.

(** LiteX: [bus.add_slave(name, slave, region)] commits the region and
    records the slave. *)
Definition add_slave (name : string) (r : SoCRegion) (s : SoC) : Py SoC :=
  s' <- add_region name r s ;;
  Ok (mkSoC (platform s') (mem_map s') (regions s') (constants s') (csr_locs s')
        (modules s') (slaves s' ++ [name]) (main_ram_init s') (cpu_debug s')
        (clock_domains s') (period_constraints s') (false_paths s')
        (pre_placement_commands s') (comb s')).

(** LiteX: [add_constant(name, value)] refuses a constant declared twice. *)
Definition add_constant (name : string) (v : Z) (s : SoC) : Py SoC :=
  match constants s !! name with
  | Some _ => Raise (SoCError name)
  | None =>
      Ok (mkSoC (platform s) (mem_map s) (regions s) (<[name := v]> (constants s))
            (csr_locs s) (modules s) (slaves s) (main_ram_init s) (cpu_debug s)
            (clock_domains s) (period_constraints s) (false_paths s)
            (pre_placement_commands s) (comb s))
  end.

Definition add_clock_domain (cd : ClockDomain) (s : SoC) : SoC :=
  mkSoC (platform s) (mem_map s) (regions s) (constants s) (csr_locs s)
        (modules s) (slaves s) (main_ram_init s) (cpu_debug s)
        (clock_domains s ++ [cd]) (period_constraints s) (false_paths s)
        (pre_placement_commands s) (comb s).

(** [platform.add_period_constraint(clk, num/den)]. *)
Definition add_period_constraint (clk : string) (num den : Z) (s : SoC) : SoC :=
  mkSoC (platform s) (mem_map s) (regions s) (constants s) (csr_locs s)
        (modules s) (slaves s) (main_ram_init s) (cpu_debug s)
        (clock_domains s) (period_constraints s ++ [mkPeriod clk num den])
        (false_paths s) (pre_placement_commands s) (comb s).

(** [platform.add_false_path_constraints(a, b)]. *)
Definition add_false_path_constraints (a b : string) (s : SoC) : SoC :=
  mkSoC (platform s) (mem_map s) (regions s) (constants s) (csr_locs s)
        (modules s) (slaves s) (main_ram_init s) (cpu_debug s)
        (clock_domains s) (period_constraints s) (false_paths s ++ [(a, b)])
        (pre_placement_commands s) (comb s).

(** [platform.toolchain.pre_placement_commands.append(cmd)]. *)
Definition append_pre_placement (cmd : string) (s : SoC) : SoC :=
  mkSoC (platform s) (mem_map s) (regions s) (constants s) (csr_locs s)
        (modules s) (slaves s) (main_ram_init s) (cpu_debug s)
        (clock_domains s) (period_constraints s) (false_paths s)
        (pre_placement_commands s ++ [cmd]) (comb s).

(** [self.comb += [statement, ...]]. *)
Definition add_comb (ls : list Comb) (s : SoC) : SoC :=
  mkSoC (platform s) (mem_map s) (regions s) (constants s) (csr_locs s)
        (modules s) (slaves s) (main_ram_init s) (cpu_debug s)
        (clock_domains s) (period_constraints s) (false_paths s)
        (pre_placement_commands s) (comb s ++ ls).

Definition set_cpu_debug (s : SoC) : SoC :=
  mkSoC (platform s) (mem_map s) (regions s) (constants s) (csr_locs s)
        (modules s) (slaves s) (main_ram_init s) true
        (clock_domains s) (period_constraints s) (false_paths s)
        (pre_placement_commands s) (comb s).

(** Migen: [Record.connect] walks the fields of one record of the
    producer; a field in [keep] is read on the matching record of the
    consumer ([AttributeError] when it is not declared there), a field
    outside [keep] is skipped. *)
Fixpoint connect_fields (fs cfs : list string) (kp : gset string)
  : Py (list string) :=
  match fs with
  | [] => Ok []
  | f :: fs' =>
      if decide (f ∈ kp) then
        if decide (f ∈ cfs) then
          rest <- connect_fields fs' cfs kp ;; Ok (f :: rest)
        else Raise (AttributeError f)
      else connect_fields fs' cfs kp
  end.

(** The handshake signals of every stream endpoint. *)
Definition handshake : list string := ["valid"; "ready"; "first"; "last"].

(** Migen: an endpoint is a record of the handshake signals, the payload
    record and the parameter record; [connect] wires the handshake, then
    payload to payload, then parameters to parameters. *)
Definition connect (p c : Endpoint) (kp : gset string) : Py StreamLink :=
  hs <- connect_fields handshake handshake kp ;;
  pl <- connect_fields (ep_payload p) (ep_payload c) kp ;;
  pr <- connect_fields (ep_param p) (ep_param c) kp ;;
  Ok (mkLink p c kp (hs ++ pl ++ pr)).

(** LiteX: [add_constant] for each constant of a list, in order. *)
Fixpoint add_constants (cs : list (string * Z)) (s : SoC) : Py SoC :=
  match cs with
  | [] => Ok s
  | c :: cs' => s' <- add_constant c.1 c.2 s ;; add_constants cs' s'
  end.

(** ** The clock generator *)

(** [CRG.__init__]: the [sys] and [idelay] domains, both PLL outputs of the
    125 MHz [pcie] clock. *)
Definition CRG (sys_clk_freq : Z) : list ClockDomain :=
  [ mkClockDomain "sys"    (Some sys_clk_freq) (Some "pcie");
    mkClockDomain "idelay" (Some 200000000)    (Some "pcie") ].

(** ** The composition *)

(** Keyword arguments of [BaseSoC.__init__]. *)
Record BaseSoCArgs : Type := mkArgs {
  board                 : string;
  sys_clk_freq          : Z;
  with_cpu              : bool;
  cpu_firmware          : option string;
  with_jtagbone         : bool;
  with_bscan            : bool;
  flash_boot            : bool;
  firmware_flash_offset : PyVal
}.

(** The defaults of the signature. *)
Definition BaseSoC_defaults : BaseSoCArgs :=
  mkArgs "limesdr" 125000000 true None true false false (PyInt 0x220000).

(** The dict of platforms indexed by [board]. *)
Definition platforms : gmap string Platform :=
  <["fairwaves_cs" := FairwavesXTRX "xc7a35t"]>
  (<["fairwaves_pro" := FairwavesXTRX "xc7a50t"]>
  (<["limesdr" := LimeSDRXTRX]> ∅)).

(** LiteX: the part of [SoCCore.__init__] that the script reads back: the
    reserved CSR locations, the address map, the [cpu] and [uart] modules,
    the regions and bus slaves of the core, and the integrated main RAM
    when its size is not zero.  [add_ram] registers it as the bus slave
    [main_ram] at [mem_map["main_ram"]] with its initial contents, and
    declares [CONFIG_MAIN_RAM_INIT] when these are not empty. *)
Definition SoCCore_init (pf : Platform) (cpu_type : option string)
    (integrated_main_ram_size : Z) (integrated_main_ram_init : list Z) : Py SoC :=
  let has_cpu := match cpu_type with Some _ => true | None => false end in
  let s0 := mkSoC pf (cpu_mem_map env) (core_regions env has_cpu) ∅ csr_map
                  ((if has_cpu then ["cpu"] else []) ++ ["uart"])
                  (core_slaves env has_cpu) [] false [] [] [] [] [] in
  if Z.eqb integrated_main_ram_size 0 then Ok s0
  else
    o <- getitem (mem_map s0) "main_ram" ;;
    s1 <- add_slave "main_ram" (mkRegion o integrated_main_ram_size false) s0 ;;
    let s2 :=
      mkSoC (platform s1) (mem_map s1) (regions s1) (constants s1) (csr_locs s1)
          (modules s1) (slaves s1) integrated_main_ram_init (cpu_debug s1)
          (clock_domains s1) (period_constraints s1) (false_paths s1)
          (pre_placement_commands s1) (comb s1) in
    match integrated_main_ram_init with
    | [] => Ok s2
    | _ :: _ => add_constant "CONFIG_MAIN_RAM_INIT" 1 s2
    end.

(** LiteX: [add_jtagbone] attaches the JTAG PHY, with its [jtag] clock
    domain, and the bridge. *)
Definition add_jtagbone (s : SoC) : SoC :=
  add_clock_domain (mkClockDomain "jtag" None None)
    (add_module "jtagbone" (add_module "jtagbone_phy" s)).

(** The names under which the constants of [add_spi_flash] are declared. *)
Definition spiflash_named (cs : list (string * Z)) : list (string * Z) :=
  map (fun c => ("SPIFLASH_" +:+ c.1, c.2)) cs.

(** LiteX: [add_spi_flash] attaches the flash PHY and core, registers the
    bus slave [spiflash] with its region, and declares its constants. *)
Definition add_spi_flash (s : SoC) : Py SoC :=
  let s := add_module "spiflash_core" (add_module "spiflash_phy" s) in
  s <- add_slave "spiflash"
         (mkRegion (spiflash_origin env) (spiflash_size env) false) s ;;
  add_constants (spiflash_named (spiflash_constants env)) s.

(** LiteX: [add_timing_constraints] of the ICAP and DNA cores constrains
    the period of the core's clock, a division of the system clock, to
    [ratio*1e9/sys_clk_freq] ns and declares it false-path to the system
    clock. *)
Definition add_timing_constraints (name : string) (ratio sys_clk_freq : Z)
    (s : SoC) : SoC :=
  add_false_path_constraints (name +:+ "_clk") "sys_clk"
    (add_period_constraint (name +:+ "_clk") (ratio * 1000000000) sys_clk_freq
       (add_clock_domain (mkClockDomain name None (Some "sys")) s)).

(** [BaseSoC.add_jtag_cpu_debug]. *)
Definition add_jtag_cpu_debug (s : SoC) : SoC :=
  let s := add_module "jtag" s in
  let s := add_comb
    [ Assign "cpu.jtag_reset"   "jtag.reset";
      Assign "cpu.jtag_capture" "jtag.capture";
      Assign "cpu.jtag_shift"   "jtag.shift";
      Assign "cpu.jtag_update"  "jtag.update";
      Assign "cpu.jtag_clk"     "jtag.tck";
      Assign "cpu.jtag_tdi"     "jtag.tdi";
      Assign "cpu.jtag_enable"  "True";
      Assign "jtag.tdo"         "cpu.jtag_tdo" ] s in
  let s := add_clock_domain (mkClockDomain "jtag" None None) s in
  let s := add_comb [ Assign "jtag_clk" "jtag.tck" ] s in
  let s := add_period_constraint "jtag_clk" 1000000000 20000000 s in
  add_false_path_constraints "jtag_clk" "sys_clk" s.

(** The three [set_clock_groups] commands of one round of the loop over
    [range(4)], with the spacing of the script. *)
Definition clock_group_commands (i : nat) : list string :=
  let n := NilEmpty.string_of_uint (Nat.to_uint i) in
  let pre := "set_clock_groups -group [get_clocks {{*s7pciephy_clkout" +:+ n
             +:+ "}}] -group [get_clocks " in
  [ pre +:+ "       dna_clk] -asynchronous";
    pre +:+ "      jtag_clk] -asynchronous";
    pre +:+ "      icap_clk] -asynchronous" ].

(** The [keep] set given to both stream connections. *)
Definition dma_keep : gset string :=
  {[ "valid"; "ready"; "last"; "data" ]}.

Definition pcie_dma0_source : Endpoint :=
  mkEndpoint "pcie_dma0.source" (pcie_dma0_payload env) [].
Definition pcie_dma0_sink : Endpoint :=
  mkEndpoint "pcie_dma0.sink" (pcie_dma0_payload env) [].
Definition lime_top_dma_rx : Endpoint :=
  mkEndpoint "lime_top.dma_rx" (lime_top_dma_rx_payload env) [].
Definition lime_top_dma_tx : Endpoint :=
  mkEndpoint "lime_top.dma_tx" (lime_top_dma_tx_payload env) [].

(** The SPI flash section of [BaseSoC.__init__]. *)
Definition spi_flash_section (a : BaseSoCArgs) (s : SoC) : Py SoC :=
  if flash_boot a then
    s <- add_spi_flash s ;;
    spiflash <- getitem (regions s) "spiflash" ;;
    o <- int_add (origin spiflash) (firmware_flash_offset a) ;;
    s <- add_region "flash" (mkRegion o 0x40000 true) s ;;
    flash <- getitem (regions s) "flash" ;;
    add_constant "FLASH_BOOT_ADDRESS" (origin flash) s
  else
    main_ram <- getitem (mem_map s) "main_ram" ;;
    s <- add_constant "ROM_BOOT_ADDRESS" main_ram s ;;
    Ok (add_module "flash" (add_module "flash_cs_n" s)).

(** The last section of [BaseSoC.__init__]: the LimeTop instance, its
    memory-mapped slave and its two stream connections to the DMA. *)
Definition lime_top_section (s : SoC) : Py SoC :=
  let s := add_module "lime_top" s in
  s <- add_slave "lime_top_mmap" (mkRegion 0x3000000 0x1000 false) s ;;
  rx <- connect pcie_dma0_source lime_top_dma_rx dma_keep ;;
  tx <- connect lime_top_dma_tx pcie_dma0_sink dma_keep ;;
  Ok (add_comb [Connect rx; Connect tx] s).

(** The sections of [BaseSoC.__init__] from "Clocking" to "ICAP": the clock
    generator, the JTAGBone bridge when [with_jtagbone], the CPU debug
    chain when [with_bscan], the LEDs and the ICAP. *)
Definition debug_section (a : BaseSoCArgs) (s : SoC) : SoC :=
  (* the debug attributes that [with_bscan] sets on the VexRiscvSMP class
     ahead of SoCCore.__init__, kept with the composed system *)
  let s := if with_bscan a then set_cpu_debug s else s in
  (* Clocking *)
  let s := fold_left (fun s cd => add_clock_domain cd s)
             (CRG (sys_clk_freq a)) (add_module "crg" s) in
  (* JTAGBone *)
  let s := if with_jtagbone a
           then add_false_path_constraints "jtag_clk" "sys_clk"
                  (add_period_constraint "jtag_clk" 1000000000 20000000
                     (add_jtagbone s))
           else s in
  (* JTAG CPU Debug *)
  let s := if with_bscan a then add_jtag_cpu_debug s else s in
  (* Leds *)
  let s := add_module "leds" s in
  (* ICAP *)
  add_timing_constraints "icap" 16 (sys_clk_freq a) (add_module "icap" s).

(** The sections from "XADC" to "Timing Constraints/False Paths".
    LiteX: [add_pcie] attaches the MSI and DMA modules and declares the
    system clock false-path to the PCIe clock. *)
Definition peripheral_section (a : BaseSoCArgs) (s : SoC) : SoC :=
  (* XADC, DNA *)
  let s := add_module "xadc" s in
  let s := add_timing_constraints "dna" 2 (sys_clk_freq a) (add_module "dna" s) in
  (* PCIe *)
  let s := add_clock_domain (mkClockDomain "pcie" (Some 125000000) None)
             (add_module "pcie_phy" s) in
  let s := add_false_path_constraints "sys_clk" "pcie_clk"
             (add_module "pcie_dma0" (add_module "pcie_msi" s)) in
  (* I2C buses, Aux *)
  let s := add_module "aux" (add_module "i2c1" (add_module "i2c0" s)) in
  (* Timing Constraints/False Paths *)
  fold_left (fun s cmd => append_pre_placement cmd s)
    (flat_map clock_group_commands (seq 0 4)) s.

(** The value given as [integrated_main_ram_init]. *)
Definition main_ram_contents (a : BaseSoCArgs) : Py (list Z) :=
  match cpu_firmware a with
  | None => Ok []
  | Some path => if flash_boot a then Ok [] else get_mem_data env path
  end.

(** [BaseSoC.__init__], section by section. *)
Definition BaseSoC (a : BaseSoCArgs) : Py SoC :=
  (* Platform *)
  pf <- getitem platforms (board a) ;;
  (* SoCCore *)
  init <- main_ram_contents a ;;
  s <- SoCCore_init pf
         (if with_cpu a then Some "vexriscv_smp" else None)
         (if with_cpu a then 0x4000 else 0)
         init ;;
  (* Clocking, JTAGBone, JTAG CPU Debug, Leds, ICAP *)
  let s := debug_section a s in
  (* SPIFlash *)
  s <- spi_flash_section a s ;;
  (* XADC, DNA, PCIe, I2C, Aux, Timing Constraints/False Paths *)
  let s := peripheral_section a s in
  (* Lime Top Level Example *)
  lime_top_section s.

(** [BaseSoC.__init__] up to the section "Lime Top Level Example": the
    system as it is when that section starts. *)
Definition BaseSoC_until_lime_top (a : BaseSoCArgs) : Py SoC :=
  pf <- getitem platforms (board a) ;;
  init <- main_ram_contents a ;;
  s <- SoCCore_init pf
         (if with_cpu a then Some "vexriscv_smp" else None)
         (if with_cpu a then 0x4000 else 0)
         init ;;
  s <- spi_flash_section a (debug_section a s) ;;
  Ok (peripheral_section a s).

End Composition.

(** ** The build script *)

(** The options as they appear on the command line: a flag is present or
    not, an option with a value is absent or carries its text. *)
Record CommandLine : Type := mkCommandLine {
  cl_board                 : option string;
  cl_with_bscan            : bool;
  cl_build                 : bool;
  cl_load                  : bool;
  cl_flash                 : bool;
  cl_cable                 : option string;
  cl_driver                : bool;
  cl_flash_boot            : bool;
  cl_firmware_flash_offset : option string
}.

(** The namespace returned by [parser.parse_args()]. *)
Record Namespace : Type := mkNamespace {
  args_board                 : string;
  args_with_bscan            : bool;
  args_build                 : bool;
  args_load                  : bool;
  args_flash                 : bool;
  args_cable                 : string;
  args_driver                : bool;
  args_flash_boot            : bool;
  args_firmware_flash_offset : PyVal
}.

(** argparse: an option declared without [type=] stores the text of the
    command line; its default is stored as it is when the option is absent. *)
Definition store (default : PyVal) (given : option string) : PyVal :=
  match given with
  | None => default
  | Some text => PyStr text
  end.

Definition store_str (default : string) (given : option string) : string :=
  match given with
  | None => default
  | Some text => text
  end.

Definition board_choices : list string :=
  ["fairwaves_cs"; "fairwaves_pro"; "limesdr"].

(** The parser that [main] declares; argparse leaves with status 2 on a
    board outside [choices]. *)
Definition parse_args (cl : CommandLine) : Py Namespace :=
  _ <- match cl_board cl with
       | Some b =>
           if bool_decide (b ∈ board_choices) then Ok tt
           else Raise (SystemExit 2)
       | None => Ok tt
       end ;;
  Ok (mkNamespace
        (store_str "fairwaves_pro" (cl_board cl))
        (cl_with_bscan cl)
        (cl_build cl)
        (cl_load cl)
        (cl_flash cl)
        (store_str "digilent_hs2" (cl_cable cl))
        (cl_driver cl)
        (cl_flash_boot cl)
        (store (PyInt 0x220000) (cl_firmware_flash_offset cl))).

(** What the script makes happen outside itself, in order. *)
Inductive Event : Type :=
| Composed (run : nat) (soc : SoC)
| BuilderBuild (run : nat) (request_image : bool)
| System (command : string) (status : Z)
| GenerateSoftware (use_litepcie_software : bool)
| LoadBitstream (cable file : string)
| FlashImage (cable : string) (address : PyVal) (file : string)
| InsertCrc (infile outfile : string).

(** A step of the script: it extends the trace of events and returns or
    raises. *)
Definition Script (A : Type) : Type := list Event -> list Event * Py A.

Definition ret {A} (a : A) : Script A := fun t => (t, Ok a).

Definition bind {A B} (m : Script A) (k : A -> Script B) : Script B :=
  fun t =>
    match m t with
    | (t', Ok a) => k a t'
    | (t', Raise e) => (t', Raise e)
    end.

Definition emit (ev : Event) : Script unit := fun t => (t ++ [ev], Ok tt).

Definition lift {A} (m : Py A) : Script A := fun t => (t, m).

Definition raise_if (b : bool) (e : PyExn) : Script unit :=
  fun t => (t, if b then Raise e else Ok tt).

Declare Scope script_scope.
Delimit Scope script_scope with script.
Notation "x <~ m ;; k" := (bind m (fun x => k))
  (at level 100, m at next level, right associativity) : script_scope.
Notation "m ;;; k" := (bind m (fun _ => k))
  (at level 100, right associativity) : script_scope.

(** [os.path.join] of a directory and a file name. *)
Definition path_join (dir file : string) : string := dir +:+ "/" +:+ file.

Section Build.

Variable env : Env.

Local Open Scope script_scope.

(** [Builder.build(run=...)]: the vendor flow is started when [run] holds;
    a failing tool surfaces as an exception. *)
Definition builder_build (run : nat) (request_image : bool) : Script unit :=
  emit (BuilderBuild run request_image) ;;;
  raise_if (builder_raises env run) (ToolError "builder").

(** [os.system(command)]: the exit status is returned, nothing is raised. *)
Definition os_system (command : string) : Script Z :=
  emit (System command (make_status env)) ;;;
  ret (make_status env).

(** The keyword arguments that [main] gives to [BaseSoC] in one run. *)
Definition run_args (args : Namespace) (run : nat) : BaseSoCArgs :=
  let prepare := Nat.eqb run 0 in
  mkArgs (args_board args)
         (sys_clk_freq BaseSoC_defaults)
         (with_cpu BaseSoC_defaults)
         (if prepare then None else Some "firmware/firmware.bin")
         (negb (args_with_bscan args))
         (args_with_bscan args)
         (args_flash_boot args)
         (args_firmware_flash_offset args).

(** The body of the loop [for run in range(2)]. *)
Definition build_run (args : Namespace) (run : nat) : Script SoC :=
  let prepare := Nat.eqb run 0 in
  let build   := Nat.eqb run 1 && args_build args in
  soc <~ lift (BaseSoC env (run_args args run)) ;;
  emit (Composed run soc) ;;;
  builder_build run build ;;;
  (if prepare
   then _ <~ os_system ("cd firmware && make BUILD_DIR=" +:+ output_dir env
                          +:+ " clean all") ;; ret tt
   else ret tt) ;;;
  ret soc.

(** The loop; [soc] is the value bound by the last round. *)
Fixpoint build_runs (args : Namespace) (runs : list nat) (soc : option SoC)
  : Script (option SoC) :=
  match runs with
  | [] => ret soc
  | run :: runs' =>
      soc' <~ build_run args run ;;
      build_runs args runs' (Some soc')
  end.

Definition flash_section (args : Namespace) : Script unit :=
  (if args_flash args
   then
     emit (FlashImage (args_cable args) (PyInt 0)
             (path_join (gateware_dir env) (build_name env +:+ ".bin"))) ;;;
     raise_if (programmer_raises env) (ToolError "programmer")
   else ret tt) ;;;
  (if args_flash_boot args && args_flash args
   then
     emit (InsertCrc "firmware/firmware.bin" "firmware/firmware.fbi") ;;;
     emit (FlashImage (args_cable args) (args_firmware_flash_offset args)
             "firmware/firmware.fbi") ;;;
     raise_if (programmer_raises env) (ToolError "programmer")
   else ret tt).

(** The statements of [main] after [parse_args]. *)
Definition main_body (args : Namespace) : Script unit :=
  _ <~ build_runs args (seq 0 2) None ;;
  emit (GenerateSoftware (args_driver args)) ;;;
  raise_if (driver_raises env) (ToolError "generate_litepcie_software") ;;;
  (if args_load args
   then
     emit (LoadBitstream (args_cable args)
             (path_join (gateware_dir env) (build_name env +:+ ".bit"))) ;;;
     raise_if (programmer_raises env) (ToolError "programmer")
   else ret tt) ;;;
  flash_section args.

(** [main]. *)
Definition main_script (cl : CommandLine) : Script unit :=
  args <~ lift (parse_args cl) ;;
  main_body args.

Definition main (cl : CommandLine) : list Event * Py unit := main_script cl [].

End Build.

(** ** A concrete environment *)

(** Two regions overlap when neither starts at or after the end of the
    other. *)
Definition overlaps (r0 r1 : SoCRegion) : bool :=
  negb (Z.leb (origin r1 + size r1) (origin r0)
        || Z.leb (origin r0 + size r0) (origin r1)).

(** A bus that refuses a region overlapping a committed one; regions for
    the linker are not compared. *)
Definition no_overlap_bus (rs : gmap string SoCRegion) (name : string)
    (r : SoCRegion) : bool :=
  linker r ||
  forallb (fun nr => linker (snd nr) || negb (overlaps (snd nr) r))
          (map_to_list rs).

Definition firmware_words : list Z := [0x00000513; 0x00008067].

(** The environment of a LiteX build for these boards: the address map of
    VexRiscv-SMP, the regions and slaves that the core commits for the ROM,
    the SRAM and the interrupt controllers of the CPU, a 32 MiB flash that
    the bus places at [0x2000000], single-field [data] payloads; a
    firmware file is present and every external tool succeeds. *)
Definition example_env : Env :=
  mkEnv
    (<["rom" := 0x00000000]> (<["sram" := 0x10000000]>
      (<["main_ram" := 0x40000000]> (<["csr" := 0xf0000000]>
        (<["clint" := 0xf0010000]> (<["plic" := 0xf0c00000]> ∅))))))
    (fun has_cpu =>
       if has_cpu
       then <["plic" := mkRegion 0xf0c00000 0x400000 false]>
              (<["clint" := mkRegion 0xf0010000 0x10000 false]>
                (<["rom" := mkRegion 0x00000000 0x8000 false]>
                  (<["sram" := mkRegion 0x10000000 0x2000 false]> ∅)))
       else <["sram" := mkRegion 0x10000000 0x2000 false]> ∅)
    (fun has_cpu => if has_cpu then ["plic"; "clint"; "rom"; "sram"] else ["sram"])
    no_overlap_bus
    0x2000000 0x2000000
    [("PHY_FREQUENCY", 20000000); ("MODULE_NAME", 0);
     ("MODULE_TOTAL_SIZE", 0x2000000); ("MODULE_PAGE_SIZE", 256)]
    (fun path => if String.eqb path "firmware/firmware.bin"
                 then Ok firmware_words else Raise (OSError path))
    ["data"] ["data"] ["data"]
    "build/limesdr_xtrx_platform"
    "build/limesdr_xtrx_platform/gateware"
    "limesdr_xtrx_platform"
    (fun _ => false)
    0
    false false.

(** The same environment with a firmware [make] that exits with code 2:
    [os.system] returns 512. *)
Definition failing_make_env : Env :=
  mkEnv (cpu_mem_map example_env) (core_regions example_env)
        (core_slaves example_env)
        (bus_accepts example_env) (spiflash_origin example_env)
        (spiflash_size example_env) (spiflash_constants example_env)
        (get_mem_data example_env)
        (pcie_dma0_payload example_env) (lime_top_dma_rx_payload example_env)
        (lime_top_dma_tx_payload example_env) (output_dir example_env)
        (gateware_dir example_env) (build_name example_env)
        (builder_raises example_env) 512
        (driver_raises example_env) (programmer_raises example_env).

(** Command lines used as concrete inputs. *)
Definition build_options : CommandLine :=
  mkCommandLine None false true false false None false false None.

(** [--build --flash-boot]. *)
Definition build_flash_boot_options : CommandLine :=
  mkCommandLine None false true false false None false true None.

(** [--build --load --flash]. *)
Definition load_flash_options : CommandLine :=
  mkCommandLine None false true true true None false false None.

Definition bscan_options : CommandLine :=
  mkCommandLine (Some "limesdr") true true false false None false false None.

(** [--build --flash-boot --firmware-flash-offset 0x300000]. *)
Definition offset_options : CommandLine :=
  mkCommandLine None false true false false None false true (Some "0x300000").

Definition flash_boot_args : BaseSoCArgs :=
  mkArgs "limesdr" 125000000 true None true false true (PyInt 0x220000).

Definition empty_soc : SoC :=
  mkSoC LimeSDRXTRX ∅ ∅ ∅ [] [] [] [] false [] [] [] [] [].

(** The system of a composition that returned. *)
Definition composed (m : Py SoC) : SoC :=
  match m with
  | Ok s => s
  | Raise _ => empty_soc
  end.

(** A step ahead of the vendor flow raises [e]: option parsing, the
    composition of the prepare run, the builder of the prepare run, or the
    composition of the finalize run. *)
Inductive phase_raises (env : Env) (cl : CommandLine) : PyExn -> Prop :=
| parsing_raises e :
    parse_args cl = Raise e ->
    phase_raises env cl e
| prepare_composition_raises args e :
    parse_args cl = Ok args ->
    BaseSoC env (run_args args 0) = Raise e ->
    phase_raises env cl e
| prepare_builder_raises args s0 :
    parse_args cl = Ok args ->
    BaseSoC env (run_args args 0) = Ok s0 ->
    builder_raises env 0 = true ->
    phase_raises env cl (ToolError "builder")
| finalize_composition_raises args s0 e :
    parse_args cl = Ok args ->
    BaseSoC env (run_args args 0) = Ok s0 ->
    builder_raises env 0 = false ->
    BaseSoC env (run_args args 1) = Raise e ->
    phase_raises env cl e.

(** The stream connections among the statements of [self.comb]. *)
Definition links (s : SoC) : list StreamLink :=
  omap (fun c => match c with Connect l => Some l | Assign _ _ => None end)
       (comb s).

(** The same keyword arguments with [flash_boot] set to [b]. *)
Definition with_flash_boot (b : bool) (a : BaseSoCArgs) : BaseSoCArgs :=
  mkArgs (board a) (sys_clk_freq a) (with_cpu a) (cpu_firmware a)
         (with_jtagbone a) (with_bscan a) b (firmware_flash_offset a).

(** The modules that give access to the SPI flash in either boot mode. *)
Definition flash_modules : list string :=
  ["flash_cs_n"; "flash"; "spiflash_phy"; "spiflash_core"].

Definition other_modules (s : SoC) : list string :=
  filter (fun m => m ∉ flash_modules) (modules s).

(** The namespace parsed from [build_options]. *)
Definition build_namespace : Namespace :=
  mkNamespace "fairwaves_pro" false true false false "digilent_hs2" false false
              (PyInt 0x220000).

(** ** Timing exceptions between clock domains *)

(** [contains needle hay]: [needle] occurs in [hay]. *)
Fixpoint contains (needle hay : string) : bool :=
  match hay with
  | EmptyString => String.prefix needle EmptyString
  | String _ rest => String.prefix needle hay || contains needle rest
  end.

(** The clock signal of a domain. *)
Definition clock_of (name : string) : string := name +:+ "_clk".

(** Two clocks have an async declaration in a composed system when a false
    path joins them or a pre-placement command names both. *)
Definition async_declared (s : SoC) (a b : string) : bool :=
  existsb (fun p => (String.eqb p.1 a && String.eqb p.2 b)
                    || (String.eqb p.1 b && String.eqb p.2 a))
          (false_paths s)
  || existsb (fun cmd => contains a cmd && contains b cmd)
             (pre_placement_commands s).

(** Two domains are related by derivation when one feeds the PLL of the
    other or one PLL drives both. *)
Definition derivation_related (a b : ClockDomain) : bool :=
  match cd_source a, cd_source b with
  | Some sa, Some sb =>
      String.eqb sa sb || String.eqb sa (cd_name b) || String.eqb sb (cd_name a)
  | Some sa, None => String.eqb sa (cd_name b)
  | None, Some sb => String.eqb sb (cd_name a)
  | None, None => false
  end.

Definition jtag_domain : ClockDomain := mkClockDomain "jtag" None None.
Definition idelay_domain : ClockDomain :=
  mkClockDomain "idelay" (Some 200000000) (Some "pcie").

(** The regions once [SoCCore.__init__] has returned. *)
Definition base_regions (env : Env) (has_cpu : bool) : gmap string SoCRegion :=
  if has_cpu then
    match cpu_mem_map env !! "main_ram" with
    | Some o => <["main_ram" := mkRegion o 0x4000 false]> (core_regions env true)
    | None => core_regions env true
    end
  else core_regions env false.

(** The sections that cannot raise, run on their own. *)
Definition pure_sections (a : BaseSoCArgs) : SoC :=
  peripheral_section a (debug_section a empty_soc).

(** The constants once [SoCCore.__init__] has returned with a main RAM of
    the given contents. *)
Definition init_constants (init : list Z) : gmap string Z :=
  match init with
  | [] => ∅
  | _ :: _ => <["CONFIG_MAIN_RAM_INIT" := 1]> ∅
  end.

(** A map after the constants of a list have been declared. *)
Definition declared (cs : list (string * Z)) (m : gmap string Z)
  : gmap string Z :=
  fold_left (fun m c => <[c.1 := c.2]> m) cs m.

(** The slaves of a composed system, as far as the arguments decide. *)
Definition expected_slaves (env : Env) (a : BaseSoCArgs) : list string :=
  core_slaves env (with_cpu a)
  ++ (if with_cpu a then ["main_ram"] else [])
  ++ (if flash_boot a then ["spiflash"] else []).

(** ** Declarations of the stream endpoints *)

(** Modelled from the spec: the payload of the stream endpoints of the DMA
    engine (LitePCIe) and of [gateware.LimeTop], whose declarations are not
    in the source file.  Section 3 of the specification gives a stream
    endpoint the fields valid, ready, last and data: besides the
    handshake, it carries [data]. *)
Definition specified_payload : list string := ["data"].

(** An environment with the specified endpoint declarations. *)
Definition with_specified_endpoints (env : Env) : Env :=
  mkEnv (cpu_mem_map env) (core_regions env) (core_slaves env)
        (bus_accepts env) (spiflash_origin env) (spiflash_size env)
        (spiflash_constants env) (get_mem_data env)
        specified_payload specified_payload specified_payload
        (output_dir env) (gateware_dir env) (build_name env)
        (builder_raises env) (make_status env)
        (driver_raises env) (programmer_raises env).

(** Systems composed in the concrete environment. *)
Definition default_soc : SoC :=
  composed (BaseSoC example_env BaseSoC_defaults).

Definition finalize_soc : SoC :=
  composed (BaseSoC example_env (run_args build_namespace 1)).

Definition bscan_namespace : Namespace :=
  mkNamespace "limesdr" true true false false "digilent_hs2" false false
              (PyInt 0x220000).

Definition bscan_prepare_soc : SoC :=
  composed (BaseSoC example_env (run_args bscan_namespace 0)).

(** ** Inputs for the build script *)

(** The concrete environment without a readable firmware file. *)
Definition no_firmware_env : Env :=
  mkEnv (cpu_mem_map example_env) (core_regions example_env)
        (core_slaves example_env)
        (bus_accepts example_env) (spiflash_origin example_env)
        (spiflash_size example_env) (spiflash_constants example_env)
        (fun path => Raise (OSError path))
        (pcie_dma0_payload example_env) (lime_top_dma_rx_payload example_env)
        (lime_top_dma_tx_payload example_env) (output_dir example_env)
        (gateware_dir example_env) (build_name example_env)
        (builder_raises example_env) (make_status example_env)
        (driver_raises example_env) (programmer_raises example_env).

(** [--board xtrx]. *)
Definition unknown_board_options : CommandLine :=
  mkCommandLine (Some "xtrx") false true false false None false false None.

Definition unknown_board_args : BaseSoCArgs :=
  mkArgs "xtrx" 125000000 true None true false false (PyInt 0x220000).

(** The command given to [os.system] in the prepare run. *)
Definition make_command (env : Env) : string :=
  "cd firmware && make BUILD_DIR=" +:+ output_dir env +:+ " clean all".

(** The events of the programmer after a build with the given options. *)
Definition programmer_events (env : Env) (args : Namespace) : list Event :=
  (if args_load args
   then [LoadBitstream (args_cable args)
           (path_join (gateware_dir env) (build_name env +:+ ".bit"))]
   else []) ++
  (if args_flash args
   then [FlashImage (args_cable args) (PyInt 0)
           (path_join (gateware_dir env) (build_name env +:+ ".bin"))]
   else []) ++
  (if args_flash_boot args && args_flash args
   then [InsertCrc "firmware/firmware.bin" "firmware/firmware.fbi";
         FlashImage (args_cable args) (args_firmware_flash_offset args)
           "firmware/firmware.fbi"]
   else []).

(** * Properties *)

(** ** Inversion of the library operations *)

Lemma py_bind_Ok {A B} (m : Py A) (k : A -> Py B) b :
  py_bind m k = Ok b -> exists a, m = Ok a /\ k a = Ok b.
Proof. destruct m; simpl; [eauto | discriminate]. Qed.

Lemma getitem_Ok {V} (d : gmap string V) key v :
  getitem d key = Ok v -> d !! key = Some v.
Proof. unfold getitem. destruct (d !! key); congruence. Qed.

Lemma int_add_Ok a b o :
  int_add a b = Ok o -> exists z, b = PyInt z /\ o = a + z.
Proof. destruct b; simpl; [intros [= <-]; eauto | discriminate]. Qed.

Lemma add_region_Ok env n r s s' :
  add_region env n r s = Ok s' ->
  regions s !! n = None /\ s' = set_regions (<[n := r]> (regions s)) s.
Proof.
  unfold add_region. destruct (regions s !! n); [discriminate|].
  destruct (bus_accepts _ _ _ _); [|discriminate]. intros [= <-]. auto.
Qed.

Lemma add_slave_Ok env n r s s' :
  add_slave env n r s = Ok s' ->
  regions s !! n = None /\
  s' = mkSoC (platform s) (mem_map s) (<[n := r]> (regions s)) (constants s)
         (csr_locs s) (modules s) (slaves s ++ [n]) (main_ram_init s)
         (cpu_debug s) (clock_domains s) (period_constraints s)
         (false_paths s) (pre_placement_commands s) (comb s).
Proof.
  unfold add_slave. intros H. apply py_bind_Ok in H as (s1 & H1 & H).
  apply add_region_Ok in H1 as (Hfr & ->). injection H as <-. auto.
Qed.

Lemma add_constant_Ok n v s s' :
  add_constant n v s = Ok s' ->
  constants s !! n = None /\
  s' = mkSoC (platform s) (mem_map s) (regions s) (<[n := v]> (constants s))
         (csr_locs s) (modules s) (slaves s) (main_ram_init s) (cpu_debug s)
         (clock_domains s) (period_constraints s) (false_paths s)
         (pre_placement_commands s) (comb s).
Proof.
  unfold add_constant. destruct (constants s !! n); [discriminate|].
  intros [= <-]. auto.
Qed.

Lemma add_constants_Ok cs s s' :
  add_constants cs s = Ok s' ->
  s' = mkSoC (platform s) (mem_map s) (regions s) (declared cs (constants s))
         (csr_locs s) (modules s) (slaves s) (main_ram_init s) (cpu_debug s)
         (clock_domains s) (period_constraints s) (false_paths s)
         (pre_placement_commands s) (comb s).
Proof.
  revert s. induction cs as [|c cs IH]; intros s H; simpl in H.
  - injection H as <-. by destruct s.
  - apply py_bind_Ok in H as (s1 & H1 & H).
    apply add_constant_Ok in H1 as (_ & ->). by apply IH in H.
Qed.

(** A constant that is not declared by a list keeps its value. *)
Lemma declared_lookup_other cs m k :
  (forall c, c ∈ cs -> c.1 <> k) ->
  declared cs m !! k = m !! k.
Proof.
  unfold declared. revert m. induction cs as [|c cs IH]; intros m H; simpl.
  - reflexivity.
  - rewrite IH.
    + apply lookup_insert_ne, H. by apply elem_of_cons; left.
    + intros c' Hc'. apply H. by apply elem_of_cons; right.
Qed.

Lemma declared_spiflash_lookup cs m k :
  (forall n, "SPIFLASH_" +:+ n <> k) ->
  declared (spiflash_named cs) m !! k = m !! k.
Proof.
  intros H. apply declared_lookup_other. intros c Hc.
  unfold spiflash_named in Hc. apply list_elem_of_fmap in Hc as (c' & -> & _).
  apply H.
Qed.

Lemma init_constants_lookup init k :
  k <> "CONFIG_MAIN_RAM_INIT" -> init_constants init !! k = None.
Proof.
  intros H. destruct init; simpl; [apply lookup_empty|].
  rewrite lookup_insert_ne by done. apply lookup_empty.
Qed.

Lemma fold_append_pre_placement cmds s :
  fold_left (fun s cmd => append_pre_placement cmd s) cmds s =
  mkSoC (platform s) (mem_map s) (regions s) (constants s) (csr_locs s)
        (modules s) (slaves s) (main_ram_init s) (cpu_debug s)
        (clock_domains s) (period_constraints s) (false_paths s)
        (pre_placement_commands s ++ cmds) (comb s).
Proof.
  revert s. induction cmds as [|c cmds IH]; intros s; simpl.
  - rewrite app_nil_r. by destruct s.
  - rewrite IH. simpl. by rewrite <- app_assoc.
Qed.

(** One step of inversion of a composition that returned. *)
Ltac py_step :=
  match goal with
  | H : py_bind _ _ = Ok _ |- _ =>
      apply py_bind_Ok in H; destruct H as (? & ? & H)
  | H : Ok _ = Ok _ |- _ => injection H as H
  | H : Raise _ = Ok _ |- _ => discriminate H
  | H : getitem _ _ = Ok _ |- _ => apply getitem_Ok in H
  | H : int_add _ _ = Ok _ |- _ =>
      apply int_add_Ok in H; destruct H as (? & ? & ?)
  | H : add_region _ _ _ _ = Ok _ |- _ =>
      apply add_region_Ok in H; destruct H as (? & ?)
  | H : add_slave _ _ _ _ = Ok _ |- _ =>
      apply add_slave_Ok in H; destruct H as (? & ?)
  | H : add_constants _ _ = Ok _ |- _ => apply add_constants_Ok in H
  | H : add_constant _ _ _ = Ok _ |- _ =>
      apply add_constant_Ok in H; destruct H as (? & ?)
  end.

(** The names of the boot constants and of the RAM flag do not start with
    [SPIFLASH_]. *)
Ltac not_spiflash := intros ?; cbn; discriminate.

(** ** Inversion of the sections of the composition *)

Lemma SoCCore_init_Ok env pf (has_cpu : bool) init s :
  SoCCore_init env pf (if has_cpu then Some "vexriscv_smp" else None)
    (if has_cpu then 0x4000 else 0) init = Ok s ->
  exists R,
    s = mkSoC pf (cpu_mem_map env) R
          (if has_cpu then init_constants init else ∅) csr_map
          ((if has_cpu then ["cpu"] else []) ++ ["uart"])
          (core_slaves env has_cpu ++ (if has_cpu then ["main_ram"] else []))
          (if has_cpu then init else []) false [] [] [] [] [] /\
    if has_cpu
    then exists o, cpu_mem_map env !! "main_ram" = Some o /\
           core_regions env true !! "main_ram" = None /\
           R = <["main_ram" := mkRegion o 0x4000 false]> (core_regions env true)
    else R = core_regions env false.
Proof.
  unfold SoCCore_init. destruct has_cpu; cbn [Z.eqb]; intros H.
  - apply py_bind_Ok in H as (o & Ho & H). apply getitem_Ok in Ho.
    apply py_bind_Ok in H as (s1 & H1 & H).
    apply add_slave_Ok in H1 as (Hfr & ->). cbn in *.
    destruct init as [|w init].
    + injection H as <-. eexists. split; [reflexivity|]. eauto.
    + apply add_constant_Ok in H as (_ & ->). cbn.
      eexists. split; [reflexivity|]. eauto.
  - injection H as <-. rewrite app_nil_r. eauto.
Qed.

Lemma spi_flash_section_Ok env a s s' :
  spi_flash_section env a s = Ok s' ->
  if flash_boot a then
    (exists off,
       firmware_flash_offset a = PyInt off /\
       regions s !! "spiflash" = None /\
       regions s !! "flash" = None /\
       constants s !! "FLASH_BOOT_ADDRESS" = None /\
       s' = mkSoC (platform s) (mem_map s)
              (<["flash" := mkRegion (spiflash_origin env + off) 0x40000 true]>
                 (<["spiflash" := mkRegion (spiflash_origin env)
                                    (spiflash_size env) false]> (regions s)))
              (<["FLASH_BOOT_ADDRESS" := spiflash_origin env + off]>
                 (declared (spiflash_named (spiflash_constants env))
                    (constants s)))
              (csr_locs s) (modules s ++ ["spiflash_phy"; "spiflash_core"])
              (slaves s ++ ["spiflash"]) (main_ram_init s) (cpu_debug s)
              (clock_domains s) (period_constraints s) (false_paths s)
              (pre_placement_commands s) (comb s))
  else
    (exists o,
       mem_map s !! "main_ram" = Some o /\
       constants s !! "ROM_BOOT_ADDRESS" = None /\
       s' = mkSoC (platform s) (mem_map s) (regions s)
              (<["ROM_BOOT_ADDRESS" := o]> (constants s))
              (csr_locs s) (modules s ++ ["flash_cs_n"; "flash"])
              (slaves s) (main_ram_init s) (cpu_debug s)
              (clock_domains s) (period_constraints s) (false_paths s)
              (pre_placement_commands s) (comb s)).
Proof.
  unfold spi_flash_section, add_spi_flash. destruct (flash_boot a); intros H.
  - apply py_bind_Ok in H as (s1 & H1 & H).
    apply py_bind_Ok in H1 as (s0 & H0 & H1).
    apply add_slave_Ok in H0 as (Hsp & ->).
    apply add_constants_Ok in H1. subst s1. cbn in H.
    repeat py_step. subst. cbn in *.
    repeat match goal with
    | H : <[?k := _]> _ !! ?k = Some _ |- _ =>
        rewrite lookup_insert_eq in H; injection H as <-
    end.
    cbn. rewrite <- !app_assoc.
    match goal with
    | H : <[_ := _]> _ !! "flash" = None |- _ =>
        rewrite lookup_insert_ne in H by discriminate
    end.
    match goal with
    | H : declared _ _ !! "FLASH_BOOT_ADDRESS" = None |- _ =>
        rewrite declared_spiflash_lookup in H by not_spiflash
    end.
    eauto 10.
  - repeat py_step. subst. unfold add_module. cbn.
    rewrite <- !app_assoc. eauto 10.
Qed.

Lemma lime_top_section_Ok env s s' :
  lime_top_section env s = Ok s' ->
  exists rx tx,
    connect (pcie_dma0_source env) (lime_top_dma_rx env) dma_keep = Ok rx /\
    connect (lime_top_dma_tx env) (pcie_dma0_sink env) dma_keep = Ok tx /\
    regions s !! "lime_top_mmap" = None /\
    s' = mkSoC (platform s) (mem_map s)
           (<["lime_top_mmap" := mkRegion 0x3000000 0x1000 false]> (regions s))
           (constants s) (csr_locs s) (modules s ++ ["lime_top"])
           (slaves s ++ ["lime_top_mmap"]) (main_ram_init s) (cpu_debug s)
           (clock_domains s) (period_constraints s) (false_paths s)
           (pre_placement_commands s) (comb s ++ [Connect rx; Connect tx]).
Proof.
  unfold lime_top_section. intros H. repeat py_step. subst.
  cbn in *. eauto 10.
Qed.

(** A composition that returned went through its three fallible sections. *)
Lemma BaseSoC_Ok env a soc :
  BaseSoC env a = Ok soc ->
  exists pf init s0 s1,
    platforms !! board a = Some pf /\
    main_ram_contents env a = Ok init /\
    SoCCore_init env pf (if with_cpu a then Some "vexriscv_smp" else None)
      (if with_cpu a then 0x4000 else 0) init = Ok s0 /\
    spi_flash_section env a (debug_section a s0) = Ok s1 /\
    lime_top_section env (peripheral_section a s1) = Ok soc.
Proof.
  unfold BaseSoC. intros H. repeat py_step. eauto 10.
Qed.

(** The composition is its first sections followed by the LimeTop
    section. *)
Lemma BaseSoC_split env a :
  BaseSoC env a =
  py_bind (BaseSoC_until_lime_top env a) (lime_top_section env).
Proof.
  unfold BaseSoC, BaseSoC_until_lime_top.
  destruct (getitem platforms (board a)); [|reflexivity]. cbn [py_bind].
  destruct (main_ram_contents env a); [|reflexivity]. cbn [py_bind].
  destruct (SoCCore_init _ _ _ _ _); [|reflexivity]. cbn [py_bind].
  destruct (spi_flash_section _ _ _); cbn [py_bind]; reflexivity.
Qed.

Lemma BaseSoC_until_lime_top_Ok env a s :
  BaseSoC_until_lime_top env a = Ok s ->
  exists pf init s0 s1,
    platforms !! board a = Some pf /\
    main_ram_contents env a = Ok init /\
    SoCCore_init env pf (if with_cpu a then Some "vexriscv_smp" else None)
      (if with_cpu a then 0x4000 else 0) init = Ok s0 /\
    spi_flash_section env a (debug_section a s0) = Ok s1 /\
    s = peripheral_section a s1.
Proof.
  unfold BaseSoC_until_lime_top. intros H. repeat py_step. eauto 10.
Qed.

(** Reduction of the record operations, leaving maps and strings alone. *)
Ltac soc_simpl :=
  cbn [platform mem_map regions constants csr_locs modules slaves
       main_ram_init cpu_debug clock_domains period_constraints false_paths
       pre_placement_commands comb add_module set_regions add_clock_domain
       add_period_constraint add_false_path_constraints append_pre_placement
       add_comb set_cpu_debug add_jtagbone add_timing_constraints
       add_jtag_cpu_debug CRG fold_left app
       board sys_clk_freq with_cpu cpu_firmware with_jtagbone with_bscan
       flash_boot firmware_flash_offset] in *.

(** Inversion of a composition that returned, for given flags. *)
Ltac compose_inv H :=
  let Hflash := fresh "Hflash" in
  apply BaseSoC_Ok in H;
  destruct H as (?pf & ?init & ?s0 & ?s1 & ?Hpf & ?Hinit & H & Hflash & ?Hlime);
  apply SoCCore_init_Ok in H; destruct H as (?R & -> & H);
  apply spi_flash_section_Ok in Hflash;
  match goal with
  | Hl : lime_top_section _ _ = Ok _ |- _ =>
      apply lime_top_section_Ok in Hl;
      destruct Hl as (?rx & ?tx & ?Hrx & ?Htx & ?Hfresh & ->)
  end;
  unfold peripheral_section, debug_section in *;
  rewrite ?fold_append_pre_placement in *;
  soc_simpl.

(** Inversion of the sections ahead of the LimeTop section. *)
Ltac prefix_inv H :=
  let Hflash := fresh "Hflash" in
  apply BaseSoC_until_lime_top_Ok in H;
  destruct H as (?pf & ?init & ?s0 & ?s1 & ?Hpf & ?Hinit & H & Hflash & ->);
  apply SoCCore_init_Ok in H; destruct H as (?R & -> & H);
  apply spi_flash_section_Ok in Hflash;
  unfold peripheral_section, debug_section in *;
  rewrite ?fold_append_pre_placement in *;
  soc_simpl.
(** ** C1: the boot constant *)

(** C1.  In every composition with a CPU (the build script never composes
    without one) that returns: when [flash_boot] holds, the offset is an
    integer, the exported constant is [FLASH_BOOT_ADDRESS], and it equals
    the origin of the [spiflash] region plus [firmware_flash_offset], which
    is also the origin of the linker region [flash]; otherwise the exported
    constant is [ROM_BOOT_ADDRESS] and it equals the origin of the
    [main_ram] region. *)
Theorem boot_constant_follows_boot_mode env a soc :
  with_cpu a = true ->
  BaseSoC env a = Ok soc ->
  if flash_boot a then
    (exists off spiflash flash,
       firmware_flash_offset a = PyInt off /\
       regions soc !! "spiflash" = Some spiflash /\
       regions soc !! "flash" = Some flash /\
       linker flash = true /\
       origin flash = origin spiflash + off /\
       constants soc !! "FLASH_BOOT_ADDRESS" = Some (origin spiflash + off) /\
       constants soc !! "ROM_BOOT_ADDRESS" = None)
  else
    (exists main_ram,
       regions soc !! "main_ram" = Some main_ram /\
       constants soc !! "ROM_BOOT_ADDRESS" = Some (origin main_ram) /\
       constants soc !! "FLASH_BOOT_ADDRESS" = None).
Proof.
  intros Hcpu H. compose_inv H. rewrite Hcpu in *.
  destruct H as (o & Ho & Hcore & ->).
  destruct (flash_boot a), (with_jtagbone a), (with_bscan a); soc_simpl.
  1-4: destruct Hflash as (off & Hoff & Hsp & Hfl & Hc & ->); soc_simpl;
       eexists off, _, _; split; [done|];
       split; [by rewrite lookup_insert_ne, lookup_insert_ne, lookup_insert_eq|];
       split; [by rewrite lookup_insert_ne, lookup_insert_eq|];
       cbn [linker origin]; split; [done|]; split; [done|]; split;
       [ by rewrite lookup_insert_eq
       | rewrite lookup_insert_ne by done;
         rewrite declared_spiflash_lookup by not_spiflash;
         by apply init_constants_lookup ].
  all: destruct Hflash as (o' & Ho' & Hc & ->); soc_simpl;
       rewrite Ho in Ho'; injection Ho' as <-;
       eexists; split;
       [by rewrite lookup_insert_ne, lookup_insert_eq|];
       cbn [origin]; split;
       [ by rewrite lookup_insert_eq
       | rewrite lookup_insert_ne by done; by apply init_constants_lookup ].
Qed.

Lemma boot_constant_follows_boot_mode_witness :
  with_cpu BaseSoC_defaults = true /\
  BaseSoC example_env BaseSoC_defaults = Ok default_soc /\
  exists main_ram,
    regions default_soc !! "main_ram" = Some main_ram /\
    constants default_soc !! "ROM_BOOT_ADDRESS" = Some (origin main_ram) /\
    constants default_soc !! "FLASH_BOOT_ADDRESS" = None.
Proof.
  assert (H : BaseSoC example_env BaseSoC_defaults = Ok default_soc)
    by (vm_compute; reflexivity).
  split; [reflexivity|]. split; [exact H|].
  exact (boot_constant_follows_boot_mode example_env BaseSoC_defaults
           default_soc eq_refl H).
Defined.

(** ** Inversion of the build script *)

Lemma parse_args_Ok cl args :
  parse_args cl = Ok args ->
  args = mkNamespace (store_str "fairwaves_pro" (cl_board cl))
           (cl_with_bscan cl) (cl_build cl) (cl_load cl) (cl_flash cl)
           (store_str "digilent_hs2" (cl_cable cl)) (cl_driver cl)
           (cl_flash_boot cl)
           (store (PyInt 0x220000) (cl_firmware_flash_offset cl)).
Proof.
  unfold parse_args. intros H. repeat py_step. congruence.
Qed.

(** Case analysis of [main] after option parsing, on what each fallible
    step of the script does. *)
Ltac main_cases env args :=
  unfold main_body, flash_section, build_runs, build_run,
    builder_build, os_system, bind, lift, emit, raise_if, ret;
  cbn [seq Nat.eqb andb];
  destruct (BaseSoC env (run_args args 0)) as [?soc0|?e0] eqn:?Hc0;
  cbn [fst snd app];
  [ destruct (builder_raises env 0) eqn:?Hb0; cbn [fst snd app];
    [ | destruct (BaseSoC env (run_args args 1)) as [?soc1|?e1] eqn:?Hc1;
        cbn [fst snd app];
        [ destruct (builder_raises env 1) eqn:?Hb1; cbn [fst snd app];
          [ | destruct (driver_raises env), (args_load args),
                (args_flash args), (args_flash_boot args),
                (programmer_raises env); cbn [fst snd app andb] ]
        | ] ]
  | ].

(** Membership of an event in an explicit trace. *)
Ltac trace_cases H :=
  repeat (apply elem_of_cons in H as [H|H];
          [try discriminate H|]);
  try (by apply elem_of_nil in H).

Lemma main_parsed env cl ev :
  ev ∈ (main env cl).1 ->
  exists args, parse_args cl = Ok args /\ ev ∈ (main_body env args []).1.
Proof.
  unfold main, main_script, bind, lift.
  destruct (parse_args cl) as [args|e]; cbn [fst snd].
  - intros H. exists args. split; [done|]. exact H.
  - intros H. by apply elem_of_nil in H.
Qed.

Lemma main_composed env cl run soc :
  Composed run soc ∈ (main env cl).1 ->
  exists args,
    parse_args cl = Ok args /\ (run = 0 \/ run = 1)%nat /\
    BaseSoC env (run_args args run) = Ok soc.
Proof.
  intros H. apply main_parsed in H as (args & Hp & H).
  exists args. split; [done|]. revert H. main_cases env args.
  all: intros H; trace_cases H.
  all: injection H as -> ->; auto.
Qed.

Lemma main_builder_build env cl run req :
  BuilderBuild run req ∈ (main env cl).1 ->
  exists args,
    parse_args cl = Ok args /\ (run = 0 \/ run = 1)%nat /\
    req = (Nat.eqb run 1 && args_build args) /\
    succeeded (BaseSoC env (run_args args 0)) = true /\
    (run = 1%nat ->
     builder_raises env 0 = false /\
     succeeded (BaseSoC env (run_args args 1)) = true).
Proof.
  intros H. apply main_parsed in H as (args & Hp & H).
  exists args. split; [done|]. revert H. main_cases env args.
  all: intros H; trace_cases H.
  all: injection H as -> ->; repeat split; auto; discriminate.
Qed.

(** ** Fields of a composed system *)

Lemma BaseSoC_main_ram_init env a soc :
  BaseSoC env a = Ok soc ->
  with_cpu a = true ->
  main_ram_contents env a = Ok (main_ram_init soc).
Proof.
  intros H Hcpu. compose_inv H. rewrite Hcpu in *.
  destruct (flash_boot a) eqn:Hfb, (with_jtagbone a), (with_bscan a); soc_simpl.
  1-4: by destruct Hflash as (? & ? & ? & ? & ? & ->).
  all: by destruct Hflash as (? & ? & ? & ->).
Qed.

Lemma BaseSoC_modules env a soc :
  BaseSoC env a = Ok soc ->
  modules soc =
    (if with_cpu a then ["cpu"] else []) ++ ["uart"; "crg"] ++
    (if with_jtagbone a then ["jtagbone_phy"; "jtagbone"] else []) ++
    (if with_bscan a then ["jtag"] else []) ++ ["leds"; "icap"] ++
    (if flash_boot a then ["spiflash_phy"; "spiflash_core"]
     else ["flash_cs_n"; "flash"]) ++
    ["xadc"; "dna"; "pcie_phy"; "pcie_msi"; "pcie_dma0"; "i2c0"; "i2c1";
     "aux"; "lime_top"].
Proof.
  intros H. compose_inv H.
  destruct (with_cpu a), (flash_boot a), (with_jtagbone a), (with_bscan a);
    soc_simpl.
  all: first [ destruct Hflash as (? & ? & ? & ? & ? & ->)
             | destruct Hflash as (? & ? & ? & ->) ]; reflexivity.
Qed.

(** ** C2: the firmware payload in the two runs *)

(** C2.  In a build, the prepare run (run 0) composes with no firmware
    ([cpu_firmware] is [None]) and leaves the initial contents of
    [main_ram] empty; the finalize run (run 1) is given
    ["firmware/firmware.bin"], and the initial contents of [main_ram] are
    the words read from that file exactly when [flash_boot] is not set:
    with [flash_boot] they are empty although the payload is supplied. *)
Theorem firmware_embedded_by_phase env cl run soc :
  Composed run soc ∈ (main env cl).1 ->
  exists args,
    parse_args cl = Ok args /\
    ((run = 0%nat /\
      cpu_firmware (run_args args run) = None /\
      main_ram_init soc = [])
     \/
     (run = 1%nat /\
      cpu_firmware (run_args args run) = Some "firmware/firmware.bin" /\
      if cl_flash_boot cl
      then main_ram_init soc = []
      else get_mem_data env "firmware/firmware.bin" = Ok (main_ram_init soc))).
Proof.
  intros H. apply main_composed in H as (args & Hp & Hrun & H).
  exists args. split; [done|].
  apply BaseSoC_main_ram_init in H; [|reflexivity].
  apply parse_args_Ok in Hp. subst args.
  destruct Hrun as [-> | ->]; [left | right]; cbn in *.
  - split; [done|]. split; [done|]. congruence.
  - split; [done|]. split; [done|].
    unfold main_ram_contents in H. cbn in H.
    destruct (cl_flash_boot cl); congruence.
Qed.

Lemma firmware_embedded_by_phase_witness :
  Composed 1 finalize_soc ∈ (main example_env build_options).1 /\
  exists args,
    parse_args build_options = Ok args /\
    ((1 = 0)%nat /\
     cpu_firmware (run_args args 1) = None /\
     main_ram_init finalize_soc = []
     \/
     (1 = 1)%nat /\
     cpu_firmware (run_args args 1) = Some "firmware/firmware.bin" /\
     get_mem_data example_env "firmware/firmware.bin"
       = Ok (main_ram_init finalize_soc)).
Proof.
  assert (H : Composed 1 finalize_soc ∈ (main example_env build_options).1).
  { apply list_elem_of_lookup. exists 3%nat. vm_compute. reflexivity. }
  split; [exact H|].
  exact (firmware_embedded_by_phase example_env build_options 1 finalize_soc H).
Defined.

(** ** C7: when the vendor flow is requested *)

(** C7.  Every call of [Builder.build] in a build has [run] equal to
    "second run and [--build] given": the prepare run never requests the
    hardware image, and a request is made only in the finalize run and only
    with the build flag. *)
Theorem image_requested_only_in_finalize env cl run req :
  BuilderBuild run req ∈ (main env cl).1 ->
  req = (Nat.eqb run 1 && cl_build cl) /\
  (run = 0%nat -> req = false) /\
  (req = true -> run = 1%nat /\ cl_build cl = true).
Proof.
  intros H. apply main_builder_build in H as (args & Hp & Hrun & -> & _).
  apply parse_args_Ok in Hp. subst args. cbn.
  destruct Hrun as [-> | ->]; cbn; repeat split; try done.
Qed.

Lemma image_requested_only_in_finalize_witness :
  BuilderBuild 1 true ∈ (main example_env build_options).1 /\
  true = (Nat.eqb 1 1 && cl_build build_options) /\
  (1%nat = 0%nat -> true = false) /\
  (true = true -> 1%nat = 1%nat /\ cl_build build_options = true).
Proof.
  assert (H : BuilderBuild 1 true ∈ (main example_env build_options).1).
  { apply list_elem_of_lookup. exists 4%nat. vm_compute. reflexivity. }
  split; [exact H|].
  exact (image_requested_only_in_finalize example_env build_options 1 true H).
Defined.

(** ** C10: the two JTAG attachments *)

(** C10.  In every composition of a build, the JTAGBone bridge is present
    exactly when [--with-bscan] is not given and the JTAG chain of the CPU
    debug exactly when it is given, so the two are never present together. *)
Theorem jtagbone_iff_not_bscan env cl run soc :
  Composed run soc ∈ (main env cl).1 ->
  ("jtagbone" ∈ modules soc <-> cl_with_bscan cl = false) /\
  ("jtag" ∈ modules soc <-> cl_with_bscan cl = true) /\
  ~ ("jtagbone" ∈ modules soc /\ "jtag" ∈ modules soc).
Proof.
  intros H. apply main_composed in H as (args & Hp & _ & H).
  apply BaseSoC_modules in H. rewrite H. clear H.
  apply parse_args_Ok in Hp. subst args. cbn.
  destruct (cl_with_bscan cl), (cl_flash_boot cl); cbn.
  all: refine (bool_decide_unpack _ _); vm_compute; exact I.
Qed.

Lemma jtagbone_iff_not_bscan_witness :
  Composed 0 bscan_prepare_soc ∈ (main example_env bscan_options).1 /\
  ("jtagbone" ∈ modules bscan_prepare_soc <-> cl_with_bscan bscan_options = false) /\
  ("jtag" ∈ modules bscan_prepare_soc <-> cl_with_bscan bscan_options = true) /\
  ~ ("jtagbone" ∈ modules bscan_prepare_soc /\ "jtag" ∈ modules bscan_prepare_soc).
Proof.
  assert (H : Composed 0 bscan_prepare_soc ∈ (main example_env bscan_options).1).
  { apply list_elem_of_lookup. exists 0%nat. vm_compute. reflexivity. }
  split; [exact H|].
  exact (jtagbone_iff_not_bscan example_env bscan_options 0 bscan_prepare_soc H).
Defined.

(** ** C3: a failing step and the vendor flow *)

(** C3, as stated, fails: with [--build] and a firmware image left by an
    earlier build, the firmware [make] of the failing environment exits with
    code 2, [os.system] returns 512 and the script drops it; the build goes
    on to request the hardware image in the finalize run and returns
    normally. *)
Lemma failed_make_still_builds :
  ~ (make_status failing_make_env <> 0 ->
     (forall run, BuilderBuild run true ∉ (main failing_make_env build_options).1)
     /\ (main failing_make_env build_options).2 <> Ok tt).
Proof.
  intros H. destruct H as [H _]; [discriminate|].
  apply (H 1%nat). apply list_elem_of_lookup. exists 4%nat.
  vm_compute. reflexivity.
Qed.

(** C3, amended.  When option parsing, the composition of either run or
    the builder of the prepare run raises an exception, [main] ends with
    that exception and [Builder.build] is never called with [run=True]: the
    hardware image is not requested. *)
Theorem abort_before_image_generation env cl e :
  phase_raises env cl e ->
  (main env cl).2 = Raise e /\
  (forall run, BuilderBuild run true ∉ (main env cl).1).
Proof.
  intros Hfail. split.
  - unfold main, main_script, bind, lift.
    destruct Hfail as [e Hp | args e Hp H0 | args s0 Hp H0 Hb | args s0 e Hp H0 Hb H1];
      rewrite Hp; cbn [fst snd]; [done|..].
    all: main_cases env args; congruence.
  - intros run H.
    apply main_builder_build in H as (args & Hp & Hrun & Hreq & Hc0 & Hc1).
    destruct Hrun as [-> | ->]; [discriminate Hreq|].
    destruct Hc1 as [Hb0 Hc1]; [done|].
    destruct Hfail as [e Hp' | args' e Hp' H0 | args' s0 Hp' H0 Hb | args' s0 e Hp' H0 Hb H1];
      rewrite Hp in Hp'; try discriminate Hp'; injection Hp' as <-.
    + rewrite H0 in Hc0. discriminate Hc0.
    + congruence.
    + rewrite H1 in Hc1. discriminate Hc1.
Qed.

Lemma abort_before_image_generation_witness :
  phase_raises example_env offset_options TypeError /\
  (main example_env offset_options).2 = Raise TypeError /\
  (forall run, BuilderBuild run true ∉ (main example_env offset_options).1).
Proof.
  assert (H : phase_raises example_env offset_options TypeError).
  { apply (prepare_composition_raises example_env offset_options
             (mkNamespace "fairwaves_pro" false true false false
                          "digilent_hs2" false true (PyStr "0x300000"))
             TypeError); vm_compute; reflexivity. }
  split; [exact H|].
  exact (abort_before_image_generation example_env offset_options TypeError H).
Defined.

(** ** C8: the flash offset of the command line *)

(** An offset given on the command line is stored as text; with
    [--flash-boot] no composition returns. *)
Lemma supplied_offset_never_composes env cl text args run :
  parse_args cl = Ok args ->
  cl_flash_boot cl = true ->
  cl_firmware_flash_offset cl = Some text ->
  args_firmware_flash_offset args = PyStr text /\
  succeeded (BaseSoC env (run_args args run)) = false.
Proof.
  intros Hp Hfb Hoff. apply parse_args_Ok in Hp. subst args. cbn.
  rewrite Hoff. split; [done|].
  destruct (BaseSoC env _) as [soc|e] eqn:H; [|done]. exfalso.
  compose_inv H. rewrite Hfb in Hflash.
  by destruct Hflash as (off & Hoff' & _).
Qed.

(** C8, on the failing input [--build --flash-boot --firmware-flash-offset
    0x300000]: the option is stored as the string ["0x300000"], the
    composition of the prepare run raises [TypeError] on
    [origin + firmware_flash_offset], and nothing is built; without the
    option, the integer default [0x220000] is stored and the SPI flash
    section commits the [flash] region at the [spiflash] origin plus that
    default. *)
Theorem supplied_flash_offset_raises :
  store (PyInt 0x220000) (cl_firmware_flash_offset offset_options)
    = PyStr "0x300000" /\
  main example_env offset_options = ([], Raise TypeError) /\
  store (PyInt 0x220000) (cl_firmware_flash_offset build_flash_boot_options)
    = PyInt 0x220000 /\
  origin <$> regions (composed (BaseSoC_until_lime_top example_env flash_boot_args))
               !! "flash"
    = Some (spiflash_origin example_env + 0x220000).
Proof. vm_compute. repeat split; reflexivity. Qed.

(** ** C5: the two stream connections *)

Lemma connect_fields_Ok fs cfs kp l :
  connect_fields fs cfs kp = Ok l ->
  forall f, f ∈ fs -> f ∈ kp -> f ∈ cfs.
Proof.
  revert l. induction fs as [|f' fs IH]; intros l H f Hin Hkeep.
  - by apply elem_of_nil in Hin.
  - simpl in H. apply elem_of_cons in Hin as [-> | Hin].
    + destruct (decide (f' ∈ kp)); [|done].
      destruct (decide (f' ∈ cfs)); [done|discriminate].
    + destruct (decide (f' ∈ kp)).
      * destruct (decide (f' ∈ cfs)); [|discriminate].
        apply py_bind_Ok in H as (rest & Hrest & _). eauto.
      * eauto.
Qed.

Lemma connect_fields_filter fs cfs kp l :
  connect_fields fs cfs kp = Ok l ->
  l = filter (fun f => f ∈ kp) fs.
Proof.
  revert l. induction fs as [|f fs IH]; intros l H; simpl in H.
  - by injection H as <-.
  - rewrite filter_cons. destruct (decide (f ∈ kp)).
    + destruct (decide (f ∈ cfs)); [|discriminate].
      apply py_bind_Ok in H as (rest & Hrest & H). injection H as <-.
      by rewrite (IH _ Hrest).
    + eauto.
Qed.

Lemma connect_Ok p c kp l :
  connect p c kp = Ok l ->
  producer l = p /\ consumer l = c /\ keep l = kp /\
  connected l = filter (fun f => f ∈ kp) (ep_fields p) /\
  forall f, f ∈ connected l -> f ∈ ep_fields c.
Proof.
  unfold connect. intros H.
  apply py_bind_Ok in H as (hs & Hhs & H).
  apply py_bind_Ok in H as (pl & Hpl & H).
  apply py_bind_Ok in H as (pr & Hpr & H).
  injection H as <-. cbn [producer consumer keep connected].
  split; [done|]. split; [done|]. split; [done|].
  pose proof (connect_fields_filter _ _ _ _ Hhs) as Fhs.
  pose proof (connect_fields_filter _ _ _ _ Hpl) as Fpl.
  pose proof (connect_fields_filter _ _ _ _ Hpr) as Fpr.
  split.
  - unfold ep_fields. rewrite !filter_app. by rewrite Fhs, Fpl, Fpr.
  - intros f Hf. unfold ep_fields.
    apply elem_of_app in Hf as [Hf | Hf]; [|apply elem_of_app in Hf as [Hf | Hf]].
    + rewrite Fhs in Hf. apply list_elem_of_filter in Hf as [_ Hf].
      apply elem_of_app. by left.
    + rewrite Fpl in Hf. apply list_elem_of_filter in Hf as [Hk Hf].
      apply elem_of_app. right. apply elem_of_app. left.
      by eapply connect_fields_Ok.
    + rewrite Fpr in Hf. apply list_elem_of_filter in Hf as [Hk Hf].
      apply elem_of_app. right. apply elem_of_app. right.
      by eapply connect_fields_Ok.
Qed.

(** A composition that returned is its first sections, which returned,
    followed by the additions of the LimeTop section. *)
Lemma BaseSoC_prefix env a soc :
  BaseSoC env a = Ok soc ->
  exists s rx tx,
    BaseSoC_until_lime_top env a = Ok s /\
    connect (pcie_dma0_source env) (lime_top_dma_rx env) dma_keep = Ok rx /\
    connect (lime_top_dma_tx env) (pcie_dma0_sink env) dma_keep = Ok tx /\
    regions s !! "lime_top_mmap" = None /\
    soc = mkSoC (platform s) (mem_map s)
            (<["lime_top_mmap" := mkRegion 0x3000000 0x1000 false]> (regions s))
            (constants s) (csr_locs s) (modules s ++ ["lime_top"])
            (slaves s ++ ["lime_top_mmap"]) (main_ram_init s) (cpu_debug s)
            (clock_domains s) (period_constraints s) (false_paths s)
            (pre_placement_commands s) (comb s ++ [Connect rx; Connect tx]).
Proof.
  rewrite BaseSoC_split. intros H.
  apply py_bind_Ok in H as (s & Hs & H).
  apply lime_top_section_Ok in H as (rx & tx & Hrx & Htx & Hfr & ->).
  eauto 10.
Qed.

Lemma BaseSoC_links env a soc :
  BaseSoC env a = Ok soc ->
  exists rx tx,
    connect (pcie_dma0_source env) (lime_top_dma_rx env) dma_keep = Ok rx /\
    connect (lime_top_dma_tx env) (pcie_dma0_sink env) dma_keep = Ok tx /\
    links soc = [rx; tx].
Proof.
  intros H. apply BaseSoC_prefix in H as (s & rx & tx & Hs & Hrx & Htx & _ & ->).
  exists rx, tx. split; [done|]. split; [done|].
  prefix_inv Hs. unfold links. soc_simpl.
  destruct (flash_boot a), (with_jtagbone a), (with_bscan a); soc_simpl.
  all: first [ destruct Hflash as (? & ? & ? & ? & ? & ->)
             | destruct Hflash as (? & ? & ? & ->) ]; reflexivity.
Qed.

(** C5.  With the endpoint declarations of the specification, a
    composition that returns has made exactly two stream connections: from
    the DMA source to LimeTop's [dma_rx] (host to device) and from
    LimeTop's [dma_tx] to the DMA sink (device to host).  The [keep] set of
    each connection is contained in the declared fields of its producer and
    of its consumer and contains [valid], [ready] and [data]; the fields
    wired are [valid], [ready], [last] and [data]. *)
Theorem stream_links_keep_negotiated env a soc :
  BaseSoC (with_specified_endpoints env) a = Ok soc ->
  (exists rx tx,
     links soc = [rx; tx] /\
     producer rx = pcie_dma0_source (with_specified_endpoints env) /\
     consumer rx = lime_top_dma_rx (with_specified_endpoints env) /\
     producer tx = lime_top_dma_tx (with_specified_endpoints env) /\
     consumer tx = pcie_dma0_sink (with_specified_endpoints env)) /\
  (forall l, l ∈ links soc ->
     keep l ⊆ (list_to_set (ep_fields (producer l)) : gset string) /\
     keep l ⊆ (list_to_set (ep_fields (consumer l)) : gset string) /\
     ({[ "valid"; "ready"; "data" ]} : gset string) ⊆ keep l /\
     connected l = ["valid"; "ready"; "last"; "data"]).
Proof.
  intros H.
  apply BaseSoC_links in H as (rx & tx & Hrx & Htx & Hlinks).
  apply connect_Ok in Hrx as (Hprx & Hcrx & Hkrx & Hfrx & _).
  apply connect_Ok in Htx as (Hptx & Hctx & Hktx & Hftx & _).
  split; [by exists rx, tx|].
  intros l Hl. rewrite Hlinks in Hl.
  assert (Hl' : l = rx \/ l = tx).
  { apply elem_of_cons in Hl as [-> | Hl]; [by left|].
    apply elem_of_cons in Hl as [-> | Hl]; [by right|].
    by apply elem_of_nil in Hl. }
  destruct Hl' as [-> | ->].
  - rewrite Hprx, Hcrx, Hkrx, Hfrx.
    split; [|split; [|split]]; try (refine (bool_decide_unpack _ _));
      vm_compute; first [exact I | reflexivity].
  - rewrite Hptx, Hctx, Hktx, Hftx.
    split; [|split; [|split]]; try (refine (bool_decide_unpack _ _));
      vm_compute; first [exact I | reflexivity].
Qed.

Lemma stream_links_keep_negotiated_witness :
  BaseSoC (with_specified_endpoints example_env) BaseSoC_defaults
    = Ok default_soc /\
  (exists rx tx,
     links default_soc = [rx; tx] /\
     producer rx = pcie_dma0_source (with_specified_endpoints example_env) /\
     consumer rx = lime_top_dma_rx (with_specified_endpoints example_env) /\
     producer tx = lime_top_dma_tx (with_specified_endpoints example_env) /\
     consumer tx = pcie_dma0_sink (with_specified_endpoints example_env)) /\
  (forall l, l ∈ links default_soc ->
     keep l ⊆ (list_to_set (ep_fields (producer l)) : gset string) /\
     keep l ⊆ (list_to_set (ep_fields (consumer l)) : gset string) /\
     ({[ "valid"; "ready"; "data" ]} : gset string) ⊆ keep l /\
     connected l = ["valid"; "ready"; "last"; "data"]).
Proof.
  assert (H : BaseSoC (with_specified_endpoints example_env) BaseSoC_defaults
              = Ok default_soc)
    by (vm_compute; reflexivity).
  split; [exact H|].
  exact (stream_links_keep_negotiated example_env BaseSoC_defaults default_soc H).
Defined.

(** ** Fields of the system ahead of the LimeTop section *)

Lemma prefix_pure_fields env a s :
  BaseSoC_until_lime_top env a = Ok s ->
  csr_locs s = csr_map /\
  slaves s = expected_slaves env a /\
  clock_domains s = clock_domains (pure_sections a) /\
  period_constraints s = period_constraints (pure_sections a) /\
  false_paths s = false_paths (pure_sections a) /\
  pre_placement_commands s = pre_placement_commands (pure_sections a) /\
  comb s = comb (pure_sections a).
Proof.
  intros H. prefix_inv H.
  unfold pure_sections, peripheral_section, debug_section, expected_slaves.
  rewrite fold_append_pre_placement. clear H.
  destruct (flash_boot a), (with_jtagbone a), (with_bscan a); soc_simpl.
  all: first [ destruct Hflash as (? & ? & ? & ? & ? & ->)
             | destruct Hflash as (? & ? & ? & ->) ];
       soc_simpl; rewrite <- ?app_assoc, ?app_nil_r;
       repeat split; reflexivity.
Qed.

Lemma prefix_core_fields env a s :
  BaseSoC_until_lime_top env a = Ok s ->
  platforms !! board a = Some (platform s) /\
  mem_map s = cpu_mem_map env /\
  cpu_debug s = with_bscan a.
Proof.
  intros H. prefix_inv H. clear H.
  destruct (flash_boot a), (with_jtagbone a), (with_bscan a); soc_simpl.
  all: first [ destruct Hflash as (? & ? & ? & ? & ? & ->)
             | destruct Hflash as (? & ? & ? & ->) ];
       soc_simpl; auto.
Qed.

Lemma prefix_main_ram_init env a s :
  BaseSoC_until_lime_top env a = Ok s ->
  if with_cpu a then main_ram_contents env a = Ok (main_ram_init s)
  else main_ram_init s = [].
Proof.
  intros H. prefix_inv H. clear H.
  destruct (with_cpu a), (flash_boot a), (with_jtagbone a), (with_bscan a);
    soc_simpl.
  all: first [ destruct Hflash as (? & ? & ? & ? & ? & ->)
             | destruct Hflash as (? & ? & ? & ->) ]; soc_simpl; done.
Qed.

Lemma prefix_modules env a s :
  BaseSoC_until_lime_top env a = Ok s ->
  modules s =
    (if with_cpu a then ["cpu"] else []) ++ ["uart"; "crg"] ++
    (if with_jtagbone a then ["jtagbone_phy"; "jtagbone"] else []) ++
    (if with_bscan a then ["jtag"] else []) ++ ["leds"; "icap"] ++
    (if flash_boot a then ["spiflash_phy"; "spiflash_core"]
     else ["flash_cs_n"; "flash"]) ++
    ["xadc"; "dna"; "pcie_phy"; "pcie_msi"; "pcie_dma0"; "i2c0"; "i2c1";
     "aux"].
Proof.
  intros H. prefix_inv H. clear H.
  destruct (with_cpu a), (flash_boot a), (with_jtagbone a), (with_bscan a);
    soc_simpl.
  all: first [ destruct Hflash as (? & ? & ? & ? & ? & ->)
             | destruct Hflash as (? & ? & ? & ->) ]; reflexivity.
Qed.

Lemma pure_sections_flash_boot b a :
  pure_sections (with_flash_boot b a) = pure_sections a.
Proof. reflexivity. Qed.

Lemma prefix_regions env a s :
  BaseSoC_until_lime_top env a = Ok s ->
  if flash_boot a then
    (exists off,
       firmware_flash_offset a = PyInt off /\
       base_regions env (with_cpu a) !! "spiflash" = None /\
       base_regions env (with_cpu a) !! "flash" = None /\
       regions s =
         <["flash" := mkRegion (spiflash_origin env + off) 0x40000 true]>
           (<["spiflash" := mkRegion (spiflash_origin env)
                              (spiflash_size env) false]>
              (base_regions env (with_cpu a))))
  else
    regions s = base_regions env (with_cpu a).
Proof.
  intros H. prefix_inv H.
  assert (HR : R = base_regions env (with_cpu a)).
  { unfold base_regions. destruct (with_cpu a); [|done].
    destruct H as (o & -> & _ & ->). done. }
  subst R. clear H.
  destruct (flash_boot a), (with_jtagbone a), (with_bscan a); soc_simpl.
  all: first [ destruct Hflash as (off & ? & ? & ? & ? & ->); exists off
             | destruct Hflash as (? & ? & ? & ->) ];
       soc_simpl; auto.
Qed.

Lemma prefix_constants env a s :
  BaseSoC_until_lime_top env a = Ok s ->
  if flash_boot a then
    (exists off,
       firmware_flash_offset a = PyInt off /\
       constants s =
         <["FLASH_BOOT_ADDRESS" := spiflash_origin env + off]>
           (declared (spiflash_named (spiflash_constants env))
              (init_constants (main_ram_init s))))
  else
    (exists o,
       cpu_mem_map env !! "main_ram" = Some o /\
       constants s = <["ROM_BOOT_ADDRESS" := o]> (init_constants (main_ram_init s))).
Proof.
  intros H. prefix_inv H. clear H.
  destruct (with_cpu a), (flash_boot a), (with_jtagbone a), (with_bscan a);
    soc_simpl.
  all: first [ destruct Hflash as (off & ? & ? & ? & ? & ->); exists off
             | destruct Hflash as (o & ? & ? & ->); exists o ];
       soc_simpl; auto.
Qed.

Lemma prefix_fresh_names env a s :
  BaseSoC_until_lime_top env a = Ok s ->
  with_cpu a = true ->
  core_regions env true !! "main_ram" = None /\
  exists o, cpu_mem_map env !! "main_ram" = Some o.
Proof.
  intros H Hcpu. prefix_inv H. rewrite Hcpu in H.
  destruct H as (o & Ho & Hfr & _). eauto.
Qed.

(** ** Fields of a composed system, continued *)

Lemma BaseSoC_pure_fields env a soc :
  BaseSoC env a = Ok soc ->
  csr_locs soc = csr_map /\
  slaves soc = expected_slaves env a ++ ["lime_top_mmap"] /\
  clock_domains soc = clock_domains (pure_sections a) /\
  period_constraints soc = period_constraints (pure_sections a) /\
  false_paths soc = false_paths (pure_sections a) /\
  pre_placement_commands soc = pre_placement_commands (pure_sections a) /\
  exists rx tx,
    connect (pcie_dma0_source env) (lime_top_dma_rx env) dma_keep = Ok rx /\
    connect (lime_top_dma_tx env) (pcie_dma0_sink env) dma_keep = Ok tx /\
    comb soc = comb (pure_sections a) ++ [Connect rx; Connect tx].
Proof.
  intros H. apply BaseSoC_prefix in H as (s & rx & tx & Hs & Hrx & Htx & _ & ->).
  apply prefix_pure_fields in Hs as (H1 & H2 & H3 & H4 & H5 & H6 & H7).
  cbn [csr_locs slaves clock_domains period_constraints false_paths
       pre_placement_commands comb].
  split; [exact H1|]. split; [by rewrite H2|]. split; [exact H3|].
  split; [exact H4|]. split; [exact H5|]. split; [exact H6|].
  exists rx, tx. split; [exact Hrx|]. split; [exact Htx|]. by rewrite H7.
Qed.

Lemma BaseSoC_regions env a soc :
  BaseSoC env a = Ok soc ->
  if flash_boot a then
    (exists off,
       firmware_flash_offset a = PyInt off /\
       base_regions env (with_cpu a) !! "spiflash" = None /\
       base_regions env (with_cpu a) !! "flash" = None /\
       regions soc =
         <["lime_top_mmap" := mkRegion 0x3000000 0x1000 false]>
           (<["flash" := mkRegion (spiflash_origin env + off) 0x40000 true]>
              (<["spiflash" := mkRegion (spiflash_origin env)
                                 (spiflash_size env) false]>
                 (base_regions env (with_cpu a)))))
  else
    regions soc =
      <["lime_top_mmap" := mkRegion 0x3000000 0x1000 false]>
        (base_regions env (with_cpu a)).
Proof.
  intros H. apply BaseSoC_prefix in H as (s & rx & tx & Hs & _ & _ & _ & ->).
  apply prefix_regions in Hs. cbn [regions].
  destruct (flash_boot a).
  - destruct Hs as (off & ? & ? & ? & ->). eauto 10.
  - by rewrite Hs.
Qed.

Lemma BaseSoC_constants env a soc :
  BaseSoC env a = Ok soc ->
  if flash_boot a then
    (exists off,
       firmware_flash_offset a = PyInt off /\
       constants soc =
         <["FLASH_BOOT_ADDRESS" := spiflash_origin env + off]>
           (declared (spiflash_named (spiflash_constants env))
              (init_constants (main_ram_init soc))))
  else
    (exists o,
       cpu_mem_map env !! "main_ram" = Some o /\
       constants soc
         = <["ROM_BOOT_ADDRESS" := o]> (init_constants (main_ram_init soc))).
Proof.
  intros H. apply BaseSoC_prefix in H as (s & rx & tx & Hs & _ & _ & _ & ->).
  apply prefix_constants in Hs. exact Hs.
Qed.

Lemma BaseSoC_no_cpu_init env a soc :
  BaseSoC env a = Ok soc ->
  with_cpu a = false ->
  main_ram_init soc = [].
Proof.
  intros H Hcpu. apply BaseSoC_prefix in H as (s & rx & tx & Hs & _ & _ & _ & ->).
  apply prefix_main_ram_init in Hs. by rewrite Hcpu in Hs.
Qed.

Lemma BaseSoC_core_fields env a soc :
  BaseSoC env a = Ok soc ->
  platforms !! board a = Some (platform soc) /\
  mem_map soc = cpu_mem_map env /\
  cpu_debug soc = with_bscan a.
Proof.
  intros H. apply BaseSoC_prefix in H as (s & rx & tx & Hs & _ & _ & _ & ->).
  by apply prefix_core_fields in Hs.
Qed.

Lemma BaseSoC_fresh_names env a soc :
  BaseSoC env a = Ok soc ->
  core_regions env (with_cpu a) !! "lime_top_mmap" = None /\
  (with_cpu a = true ->
   core_regions env true !! "main_ram" = None /\
   exists o, cpu_mem_map env !! "main_ram" = Some o).
Proof.
  intros H. apply BaseSoC_prefix in H as (s & rx & tx & Hs & _ & _ & Hfr & ->).
  split; [|by apply (prefix_fresh_names _ _ _ Hs)].
  pose proof (prefix_regions _ _ _ Hs) as Hr.
  assert (HR : base_regions env (with_cpu a) !! "lime_top_mmap" = None).
  { destruct (flash_boot a).
    - destruct Hr as (off & _ & _ & _ & Hr). rewrite Hr in Hfr.
      by rewrite !lookup_insert_ne in Hfr.
    - by rewrite Hr in Hfr. }
  unfold base_regions in HR. destruct (with_cpu a) eqn:Hcpu; [|done].
  destruct (prefix_fresh_names _ _ _ Hs Hcpu) as (_ & o & Ho).
  rewrite Ho in HR. by rewrite lookup_insert_ne in HR.
Qed.

(** ** C6: the peripheral-index table *)

(** C6.  In every composed system, two entries of the peripheral-index
    table with different names have different indices; the table is the
    literal of the class body whatever the composition is given, and its
    indices are not the sequence 0, 1, 2, ... of an automatic numbering. *)
Theorem csr_indices_distinct_and_fixed env a soc n1 i1 n2 i2 :
  BaseSoC env a = Ok soc ->
  (n1, i1) ∈ csr_locs soc ->
  (n2, i2) ∈ csr_locs soc ->
  n1 <> n2 ->
  i1 <> i2 /\
  csr_locs soc = csr_map /\
  (csr_locs soc).*2 <> Z.of_nat <$> seq 0 (length (csr_locs soc)).
Proof.
  intros H H1 H2 Hne.
  pose proof (BaseSoC_pure_fields _ _ _ H) as (Hcsr & _).
  rewrite Hcsr in *. split; [|split; [done|discriminate]].
  unfold csr_map in H1, H2.
  repeat (apply elem_of_cons in H1 as [H1|H1]; [injection H1 as -> ->|]);
    try (by apply elem_of_nil in H1).
  all: repeat (apply elem_of_cons in H2 as [H2|H2]; [injection H2 as -> ->|]);
    try (by apply elem_of_nil in H2).
  all: first [ done | discriminate ].
Qed.

Lemma csr_indices_distinct_and_fixed_witness :
  BaseSoC example_env BaseSoC_defaults = Ok default_soc /\
  ("flash", 2) ∈ csr_locs default_soc /\
  ("pcie_dma0", 12) ∈ csr_locs default_soc /\
  "flash" <> "pcie_dma0" /\
  2 <> 12 /\
  csr_locs default_soc = csr_map /\
  (csr_locs default_soc).*2
    <> Z.of_nat <$> seq 0 (length (csr_locs default_soc)).
Proof.
  assert (H : BaseSoC example_env BaseSoC_defaults = Ok default_soc)
    by (vm_compute; reflexivity).
  assert (H1 : ("flash", 2) ∈ csr_locs default_soc).
  { apply list_elem_of_lookup. exists 2%nat. vm_compute. reflexivity. }
  assert (H2 : ("pcie_dma0", 12) ∈ csr_locs default_soc).
  { apply list_elem_of_lookup. exists 7%nat. vm_compute. reflexivity. }
  assert (Hne : "flash" <> "pcie_dma0") by discriminate.
  split; [exact H|]. split; [exact H1|]. split; [exact H2|]. split; [exact Hne|].
  exact (csr_indices_distinct_and_fixed example_env BaseSoC_defaults default_soc
           "flash" 2 "pcie_dma0" 12 H H1 H2 Hne).
Defined.

(** ** C4: what [flash_boot] changes *)

(** C4, as stated, fails.  With the default board and offset [0x220000],
    the composition with [flash_boot=True] does not return: the bus places
    the 32 MiB flash at [0x2000000] and refuses the slave [lime_top_mmap] at
    [0x3000000] inside it, so there are no two results to compare.  And
    when the LimeTop section starts, the [spiflash] region, which is not the
    linker region [flash], is committed only with [flash_boot]. *)
Lemma flash_boot_changes_spiflash_region :
  ~ (exists sf st,
       BaseSoC example_env (with_flash_boot false BaseSoC_defaults) = Ok sf /\
       BaseSoC example_env (with_flash_boot true BaseSoC_defaults) = Ok st /\
       forall name, name <> "flash" ->
         regions sf !! name = regions st !! name) /\
  ~ (forall name, name <> "flash" ->
       regions (composed (BaseSoC_until_lime_top example_env
                            (with_flash_boot false BaseSoC_defaults))) !! name
       = regions (composed (BaseSoC_until_lime_top example_env
                              (with_flash_boot true BaseSoC_defaults))) !! name).
Proof.
  split.
  - intros (sf & st & _ & Ht & _). vm_compute in Ht. discriminate Ht.
  - intros H. specialize (H "spiflash" ltac:(discriminate)).
    vm_compute in H. discriminate H.
Qed.

(** C4, amended.  For fixed arguments, take the system composed with
    [flash_boot=False] and the one composed with [flash_boot=True] as they
    are when the LimeTop section starts.  They differ in the boot constant,
    in the [spiflash] region and the linker region [flash] (both present
    only with [flash_boot]), in the bus slave [spiflash], in the
    [SPIFLASH_] constants, in the modules that access the flash, and in the
    initial contents of [main_ram] (with its constant) when a firmware is
    given: with [flash_boot] the contents are empty.  Every region other
    than [spiflash] and [flash], the peripheral-index table, every other
    module, every other bus slave, every other constant and the timing
    declarations are the same. *)
Theorem flash_boot_frame env a sf st :
  BaseSoC_until_lime_top env (with_flash_boot false a) = Ok sf ->
  BaseSoC_until_lime_top env (with_flash_boot true a) = Ok st ->
  (forall name, name <> "spiflash" -> name <> "flash" ->
     regions sf !! name = regions st !! name) /\
  (regions sf !! "spiflash" = None /\ regions sf !! "flash" = None /\
   is_Some (regions st !! "spiflash") /\ is_Some (regions st !! "flash")) /\
  (is_Some (constants sf !! "ROM_BOOT_ADDRESS") /\
   constants sf !! "FLASH_BOOT_ADDRESS" = None /\
   is_Some (constants st !! "FLASH_BOOT_ADDRESS") /\
   constants st !! "ROM_BOOT_ADDRESS" = None) /\
  (forall k, k <> "ROM_BOOT_ADDRESS" -> k <> "FLASH_BOOT_ADDRESS" ->
     k <> "CONFIG_MAIN_RAM_INIT" -> (forall n, "SPIFLASH_" +:+ n <> k) ->
     constants sf !! k = constants st !! k) /\
  csr_locs sf = csr_locs st /\
  other_modules sf = other_modules st /\
  slaves st = slaves sf ++ ["spiflash"] /\
  comb sf = comb st /\
  clock_domains sf = clock_domains st /\
  period_constraints sf = period_constraints st /\
  false_paths sf = false_paths st /\
  pre_placement_commands sf = pre_placement_commands st /\
  main_ram_init st = [] /\
  (cpu_firmware a = None -> main_ram_init sf = main_ram_init st).
Proof.
  intros Hf Ht.
  pose proof (prefix_pure_fields _ _ _ Hf)
    as (Hcsr & Hsl & Hcd & Hpc & Hfp & Hpp & Hcomb).
  pose proof (prefix_pure_fields _ _ _ Ht)
    as (Hcsr' & Hsl' & Hcd' & Hpc' & Hfp' & Hpp' & Hcomb').
  rewrite pure_sections_flash_boot in *.
  pose proof (prefix_regions _ _ _ Hf) as Hrf.
  pose proof (prefix_regions _ _ _ Ht) as (off & _ & Hsp & Hfl & Hrt).
  pose proof (prefix_constants _ _ _ Hf) as (o & _ & Hcf).
  pose proof (prefix_constants _ _ _ Ht) as (off' & _ & Hct).
  pose proof (prefix_main_ram_init _ _ _ Hf) as Hif.
  pose proof (prefix_main_ram_init _ _ _ Ht) as Hit.
  unfold main_ram_contents in Hif, Hit.
  cbn [with_flash_boot flash_boot with_cpu cpu_firmware] in *.
  assert (Hst : main_ram_init st = []).
  { destruct (with_cpu a); [|done].
    destruct (cpu_firmware a); by injection Hit as <-. }
  split; [|split; [|split; [|split]]].
  - intros name Hn1 Hn2. rewrite Hrf, Hrt. by rewrite !lookup_insert_ne.
  - rewrite Hrf, Hrt. split; [done|]. split; [done|]. split.
    + rewrite lookup_insert_ne, lookup_insert_eq by done. by eexists.
    + rewrite lookup_insert_eq. by eexists.
  - rewrite Hcf, Hct. split; [|split; [|split]].
    + rewrite lookup_insert_eq. by eexists.
    + rewrite lookup_insert_ne by done. by apply init_constants_lookup.
    + rewrite lookup_insert_eq. by eexists.
    + rewrite lookup_insert_ne by done.
      rewrite declared_spiflash_lookup by not_spiflash.
      by apply init_constants_lookup.
  - intros k Hk1 Hk2 Hk3 Hk4. rewrite Hcf, Hct.
    rewrite !lookup_insert_ne by done.
    rewrite declared_spiflash_lookup by done.
    by rewrite !init_constants_lookup.
  - split; [congruence|]. split.
    { unfold other_modules.
      rewrite (prefix_modules _ _ _ Hf), (prefix_modules _ _ _ Ht).
      cbn [with_flash_boot flash_boot with_cpu with_jtagbone with_bscan].
      destruct (with_cpu a), (with_jtagbone a), (with_bscan a);
        vm_compute; reflexivity. }
    split.
    { rewrite Hsl, Hsl'. unfold expected_slaves.
      cbn [with_flash_boot flash_boot with_cpu].
      by rewrite app_nil_r, app_assoc. }
    split; [congruence|]. split; [congruence|].
    split; [congruence|]. split; [congruence|]. split; [congruence|].
    split; [exact Hst|].
    intros Hfw. rewrite Hst. rewrite Hfw in Hif.
    destruct (with_cpu a); [|done]. by injection Hif as <-.
Qed.

Lemma flash_boot_frame_witness :
  BaseSoC_until_lime_top example_env (with_flash_boot false BaseSoC_defaults)
    = Ok (composed (BaseSoC_until_lime_top example_env
                      (with_flash_boot false BaseSoC_defaults))) /\
  BaseSoC_until_lime_top example_env (with_flash_boot true BaseSoC_defaults)
    = Ok (composed (BaseSoC_until_lime_top example_env
                      (with_flash_boot true BaseSoC_defaults))) /\
  slaves (composed (BaseSoC_until_lime_top example_env
                      (with_flash_boot true BaseSoC_defaults)))
    = slaves (composed (BaseSoC_until_lime_top example_env
                          (with_flash_boot false BaseSoC_defaults)))
      ++ ["spiflash"].
Proof.
  assert (Hf : BaseSoC_until_lime_top example_env
                 (with_flash_boot false BaseSoC_defaults)
               = Ok (composed (BaseSoC_until_lime_top example_env
                                 (with_flash_boot false BaseSoC_defaults))))
    by (vm_compute; reflexivity).
  assert (Ht : BaseSoC_until_lime_top example_env
                 (with_flash_boot true BaseSoC_defaults)
               = Ok (composed (BaseSoC_until_lime_top example_env
                                 (with_flash_boot true BaseSoC_defaults))))
    by (vm_compute; reflexivity).
  split; [exact Hf|]. split; [exact Ht|].
  pose proof (flash_boot_frame example_env BaseSoC_defaults _ _ Hf Ht)
    as (_ & _ & _ & _ & _ & _ & Hs & _).
  exact Hs.
Defined.

(** ** C9: clock domains without an async declaration *)

(** C9, as stated, fails: in the finalize run of a plain [--build], the
    [jtag] domain (external) and the [idelay] domain (a PLL output of the
    PCIe clock) are declared, neither derives from the other, no false path
    and no pre-placement command joins their clocks, and the build returns
    normally. *)
Lemma undeclared_pair_does_not_fail_the_build :
  ~ (forall d1 d2 soc,
       Composed 1 soc ∈ (main example_env build_options).1 ->
       d1 ∈ clock_domains soc ->
       d2 ∈ clock_domains soc ->
       derivation_related d1 d2 = false ->
       async_declared soc (clock_of (cd_name d1)) (clock_of (cd_name d2)) = false ->
       exists e, (main example_env build_options).2 = Raise e).
Proof.
  intros H.
  destruct (H jtag_domain idelay_domain
              (composed (BaseSoC example_env (run_args build_namespace 1))))
    as [e He].
  - apply list_elem_of_lookup. exists 3%nat. vm_compute. reflexivity.
  - apply list_elem_of_lookup. exists 2%nat. vm_compute. reflexivity.
  - apply list_elem_of_lookup. exists 1%nat. vm_compute. reflexivity.
  - vm_compute. reflexivity.
  - vm_compute. reflexivity.
  - vm_compute in He. discriminate He.
Qed.

(** C9, amended.  The script validates no pair of clock domains.  Every
    composition of a build declares the [jtag] clock with a period of
    [1e9/20e6] ns and a false path to the system clock, and appends the
    twelve [set_clock_groups] commands that make each of the four PCIe PHY
    clock outputs asynchronous to [dna_clk], [jtag_clk] and [icap_clk]; it
    returns with the [jtag] and [idelay] domains declared, unrelated by
    derivation and without any async declaration between their clocks. *)
Theorem no_async_validation env cl run soc :
  Composed run soc ∈ (main env cl).1 ->
  pre_placement_commands soc = flat_map clock_group_commands (seq 0 4) /\
  mkPeriod "jtag_clk" 1000000000 20000000 ∈ period_constraints soc /\
  ("jtag_clk", "sys_clk") ∈ false_paths soc /\
  forallb (fun i => async_declared soc
                      ("s7pciephy_clkout" +:+ NilEmpty.string_of_uint (Nat.to_uint i))
                      "jtag_clk")
          (seq 0 4) = true /\
  jtag_domain ∈ clock_domains soc /\
  idelay_domain ∈ clock_domains soc /\
  derivation_related jtag_domain idelay_domain = false /\
  async_declared soc (clock_of "jtag") (clock_of "idelay") = false.
Proof.
  intros H. apply main_composed in H as (args & Hp & _ & H).
  apply BaseSoC_pure_fields in H as (_ & _ & Hcd & Hpc & Hfp & Hpp & _).
  unfold async_declared. rewrite Hcd, Hpc, Hfp, Hpp. clear Hcd Hpc Hfp Hpp.
  apply parse_args_Ok in Hp. subst args.
  unfold run_args. cbn [args_with_bscan args_board args_flash_boot
                        args_firmware_flash_offset].
  destruct (cl_with_bscan cl); cbn [negb].
  all: repeat match goal with |- _ /\ _ => split end.
  all: try (apply list_elem_of_In; vm_compute;
            repeat (first [left; reflexivity | right])).
  all: vm_compute; reflexivity.
Qed.

Lemma no_async_validation_witness :
  Composed 1 finalize_soc ∈ (main example_env build_options).1 /\
  mkPeriod "jtag_clk" 1000000000 20000000 ∈ period_constraints finalize_soc /\
  async_declared finalize_soc (clock_of "jtag") (clock_of "idelay") = false.
Proof.
  assert (H : Composed 1 finalize_soc ∈ (main example_env build_options).1).
  { apply list_elem_of_lookup. exists 3%nat. vm_compute. reflexivity. }
  split; [exact H|].
  pose proof (no_async_validation example_env build_options 1 finalize_soc H)
    as (_ & Hp & _ & _ & _ & _ & _ & Ha).
  exact (conj Hp Ha).
Defined.

(** ** The composition returns *)

Lemma connect_fields_returns fs cfs kp :
  (forall f, f ∈ fs -> f ∈ kp -> f ∈ cfs) ->
  exists l, connect_fields fs cfs kp = Ok l.
Proof.
  induction fs as [|f fs IH]; intros H; simpl; [eauto|].
  destruct IH as [l Hl].
  { intros f' Hin. apply H. by apply elem_of_cons; right. }
  destruct (decide (f ∈ kp)) as [Hk|]; [|eauto].
  destruct (decide (f ∈ cfs)) as [|Hc].
  - rewrite Hl. simpl. eauto.
  - exfalso. apply Hc, H; [by apply elem_of_cons; left | done].
Qed.

Lemma connect_returns p c kp :
  ep_payload c = ep_payload p -> ep_param c = ep_param p ->
  exists l, connect p c kp = Ok l.
Proof.
  intros Hpay Hpar. unfold connect.
  destruct (connect_fields_returns handshake handshake kp) as [hs ->]; [auto|].
  destruct (connect_fields_returns (ep_payload p) (ep_payload c) kp) as [pl ->].
  { intros f Hf _. by rewrite Hpay. }
  destruct (connect_fields_returns (ep_param p) (ep_param c) kp) as [pr ->].
  { intros f Hf _. by rewrite Hpar. }
  cbn [py_bind]. eauto.
Qed.

Lemma add_slave_returns env n r s :
  regions s !! n = None ->
  bus_accepts env (regions s) n r = true ->
  exists s', add_slave env n r s = Ok s' /\
             regions s' = <[n := r]> (regions s) /\
             constants s' = constants s /\ mem_map s' = mem_map s.
Proof.
  unfold add_slave, add_region. intros -> ->. cbn [py_bind]. eauto.
Qed.

Lemma add_constant_returns n v s :
  constants s !! n = None ->
  exists s', add_constant n v s = Ok s' /\
             regions s' = regions s /\ mem_map s' = mem_map s.
Proof. unfold add_constant. intros ->. eauto. Qed.

Lemma SoCCore_init_returns env pf init o :
  cpu_mem_map env !! "main_ram" = Some o ->
  core_regions env true !! "main_ram" = None ->
  bus_accepts env (core_regions env true) "main_ram" (mkRegion o 0x4000 false)
    = true ->
  exists s,
    SoCCore_init env pf (Some "vexriscv_smp") 0x4000 init = Ok s /\
    regions s = <["main_ram" := mkRegion o 0x4000 false]> (core_regions env true) /\
    mem_map s = cpu_mem_map env /\
    constants s !! "ROM_BOOT_ADDRESS" = None.
Proof.
  intros Hram Hfr Hbus. unfold SoCCore_init, getitem.
  cbn [Z.eqb mem_map]. rewrite Hram. cbn [py_bind].
  unfold add_slave, add_region. cbn [regions]. rewrite Hfr, Hbus.
  cbn [py_bind]. destruct init as [|w init].
  - eexists. split; [reflexivity|]. cbn. by rewrite lookup_empty.
  - unfold add_constant. cbn [constants set_regions].
    rewrite lookup_empty. eexists. split; [reflexivity|]. cbn.
    by rewrite lookup_insert_ne, lookup_empty.
Qed.

Lemma debug_section_frame a s :
  regions (debug_section a s) = regions s /\
  constants (debug_section a s) = constants s /\
  mem_map (debug_section a s) = mem_map s.
Proof.
  unfold debug_section.
  destruct (with_jtagbone a), (with_bscan a); repeat split; reflexivity.
Qed.

Lemma peripheral_section_frame a s :
  regions (peripheral_section a s) = regions s.
Proof.
  unfold peripheral_section. rewrite fold_append_pre_placement. reflexivity.
Qed.

Lemma lime_top_section_returns env s :
  regions s !! "lime_top_mmap" = None ->
  bus_accepts env (regions s) "lime_top_mmap" (mkRegion 0x3000000 0x1000 false)
    = true ->
  lime_top_dma_rx_payload env = pcie_dma0_payload env ->
  lime_top_dma_tx_payload env = pcie_dma0_payload env ->
  exists s', lime_top_section env s = Ok s'.
Proof.
  intros Hfresh Hbus Hrx Htx. unfold lime_top_section, add_slave, add_region.
  cbn [regions add_module]. rewrite Hfresh, Hbus. cbn [py_bind].
  destruct (connect_returns (pcie_dma0_source env) (lime_top_dma_rx env) dma_keep)
    as [rx ->]; [exact Hrx | reflexivity |].
  destruct (connect_returns (lime_top_dma_tx env) (pcie_dma0_sink env) dma_keep)
    as [tx ->]; [exact (eq_sym Htx) | reflexivity |].
  cbn [py_bind]. eauto.
Qed.

(** Booting from the fabric, with a board of the parser's choices, a CPU
    and a readable firmware: when the library places [main_ram], finds the
    names [main_ram] and [lime_top_mmap] free, the bus accepts these two
    slaves and both sides of each connection declare the same payload, the
    composition returns a system. *)
Lemma BaseSoC_returns env a o :
  board a ∈ board_choices ->
  with_cpu a = true ->
  flash_boot a = false ->
  succeeded (main_ram_contents env a) = true ->
  cpu_mem_map env !! "main_ram" = Some o ->
  core_regions env true !! "main_ram" = None ->
  core_regions env true !! "lime_top_mmap" = None ->
  bus_accepts env (core_regions env true) "main_ram" (mkRegion o 0x4000 false)
    = true ->
  bus_accepts env
    (<["main_ram" := mkRegion o 0x4000 false]> (core_regions env true))
    "lime_top_mmap" (mkRegion 0x3000000 0x1000 false) = true ->
  lime_top_dma_rx_payload env = pcie_dma0_payload env ->
  lime_top_dma_tx_payload env = pcie_dma0_payload env ->
  exists soc, BaseSoC env a = Ok soc.
Proof.
  intros Hboard Hcpu Hfb Hinit Hram Hm Hl Hbus1 Hbus2 Hrx Htx.
  assert (Hpf : exists pf, getitem platforms (board a) = Ok pf).
  { unfold board_choices in Hboard.
    repeat (apply elem_of_cons in Hboard as [-> | Hboard];
            [eexists; vm_compute; reflexivity|]).
    by apply elem_of_nil in Hboard. }
  destruct Hpf as [pf Hpf].
  destruct (main_ram_contents env a) as [init|] eqn:Hi; [|discriminate].
  unfold BaseSoC. rewrite Hpf, Hi, Hcpu. cbn [py_bind].
  destruct (SoCCore_init_returns env pf init o Hram Hm Hbus1)
    as (s0 & -> & Hr0 & Hm0 & Hc0).
  cbn [py_bind].
  destruct (debug_section_frame a s0) as (Hdr & Hdc & Hdm).
  unfold spi_flash_section. rewrite Hfb. unfold getitem.
  rewrite Hdm, Hm0, Hram. cbn [py_bind].
  destruct (add_constant_returns "ROM_BOOT_ADDRESS" o (debug_section a s0))
    as (s1 & -> & Hr1 & _); [by rewrite Hdc|].
  cbn [py_bind].
  apply lime_top_section_returns; try done.
  - rewrite peripheral_section_frame. cbn [add_module regions].
    rewrite Hr1, Hdr, Hr0. by rewrite lookup_insert_ne.
  - rewrite peripheral_section_frame. cbn [add_module regions].
    by rewrite Hr1, Hdr, Hr0.
Qed.

(** * Further properties of the build script *)

(** ** The board option *)

(** X1.  A board outside the parser's choices is a usage error: [main]
    leaves with status 2 before any composition, builder call or external
    command. *)
Theorem invalid_board_is_usage_error env cl b :
  cl_board cl = Some b ->
  (b ∉ board_choices) ->
  main env cl = ([], Raise (SystemExit 2)).
Proof.
  intros Hb Hnot. unfold main, main_script, bind, lift, parse_args.
  rewrite Hb. rewrite bool_decide_eq_false_2 by done. reflexivity.
Qed.

Lemma invalid_board_is_usage_error_witness :
  cl_board unknown_board_options = Some "xtrx" /\
  ("xtrx" ∉ board_choices) /\
  main example_env unknown_board_options = ([], Raise (SystemExit 2)).
Proof.
  assert (H : "xtrx" ∉ board_choices).
  { refine (bool_decide_unpack _ _). vm_compute. exact I. }
  split; [reflexivity|]. split; [exact H|].
  exact (invalid_board_is_usage_error example_env unknown_board_options "xtrx"
           eq_refl H).
Defined.

Lemma platforms_lookup_None b :
  (b ∉ board_choices) -> platforms !! b = None.
Proof.
  intros H. unfold board_choices in H.
  apply not_elem_of_cons in H as [H1 H].
  apply not_elem_of_cons in H as [H2 H].
  apply not_elem_of_cons in H as [H3 _].
  unfold platforms.
  rewrite lookup_insert_ne by done. rewrite lookup_insert_ne by done.
  rewrite lookup_insert_ne by done. apply lookup_empty.
Qed.

(** X2.  Called with a board that is not a key of its platform dict,
    [BaseSoC.__init__] raises [KeyError] on that board, whatever the other
    arguments and the environment are. *)
Theorem unknown_board_raises_KeyError env a :
  (board a ∉ board_choices) ->
  BaseSoC env a = Raise (KeyError (board a)).
Proof.
  intros H. unfold BaseSoC, getitem.
  by rewrite (platforms_lookup_None _ H).
Qed.

Lemma unknown_board_raises_KeyError_witness :
  (board unknown_board_args ∉ board_choices) /\
  BaseSoC example_env unknown_board_args = Raise (KeyError "xtrx").
Proof.
  assert (H : board unknown_board_args ∉ board_choices).
  { refine (bool_decide_unpack _ _). vm_compute. exact I. }
  split; [exact H|].
  exact (unknown_board_raises_KeyError example_env unknown_board_args H).
Defined.

(** X3.  The board of a parsed command line, given or defaulted, is one of
    the parser's choices and a key of the platform dict of [BaseSoC]: the
    platform lookup of a build cannot raise. *)
Theorem parsed_board_has_platform cl args :
  parse_args cl = Ok args ->
  args_board args ∈ board_choices /\
  is_Some (platforms !! args_board args).
Proof.
  intros H.
  assert (Hin : args_board args ∈ board_choices).
  { pose proof (parse_args_Ok _ _ H) as ->. cbn [args_board].
    unfold parse_args in H. destruct (cl_board cl) as [b|]; cbn [store_str].
    - destruct (bool_decide (b ∈ board_choices)) eqn:Hb; [|discriminate H].
      by apply bool_decide_eq_true_1 in Hb.
    - refine (bool_decide_unpack _ _). vm_compute. exact I. }
  split; [exact Hin|].
  unfold board_choices in Hin.
  repeat (apply elem_of_cons in Hin as [-> | Hin];
          [eexists; vm_compute; reflexivity|]).
  by apply elem_of_nil in Hin.
Qed.

Lemma parsed_board_has_platform_witness :
  parse_args build_options = Ok build_namespace /\
  args_board build_namespace ∈ board_choices /\
  is_Some (platforms !! args_board build_namespace).
Proof.
  split; [reflexivity|].
  exact (parsed_board_has_platform build_options build_namespace eq_refl).
Defined.

(** ** The order of a build *)

(** Case analysis of [main] after option parsing that keeps the value of
    every flag and outcome. *)
Ltac main_cases_eqn env args :=
  unfold main_body, flash_section, build_runs, build_run,
    builder_build, os_system, bind, lift, emit, raise_if, ret;
  cbn [seq Nat.eqb andb];
  destruct (BaseSoC env (run_args args 0)) as [?soc0|?e0] eqn:?Hc0;
  cbn [fst snd app];
  [ destruct (builder_raises env 0) eqn:?Hb0; cbn [fst snd app];
    [ | destruct (BaseSoC env (run_args args 1)) as [?soc1|?e1] eqn:?Hc1;
        cbn [fst snd app];
        [ destruct (builder_raises env 1) eqn:?Hb1; cbn [fst snd app];
          [ | destruct (driver_raises env) eqn:?Hdr;
              destruct (args_load args) eqn:?Hload;
              destruct (args_flash args) eqn:?Hflash;
              destruct (args_flash_boot args) eqn:?Hfboot;
              destruct (programmer_raises env) eqn:?Hprog;
              cbn [fst snd app andb] ]
        | ] ]
  | ].

(** X4.  A build that returns has done, in this order and nothing else:
    the prepare composition, a builder call without image request, the
    firmware [make], the finalize composition, a builder call whose image
    request is the [--build] flag, the driver generation, and then the
    programmer steps selected by [--load], [--flash] and [--flash-boot]. *)
Theorem successful_build_trace env cl :
  (main env cl).2 = Ok tt ->
  exists args s0 s1,
    parse_args cl = Ok args /\
    BaseSoC env (run_args args 0) = Ok s0 /\
    BaseSoC env (run_args args 1) = Ok s1 /\
    (main env cl).1 =
      [ Composed 0 s0; BuilderBuild 0 false;
        System (make_command env) (make_status env);
        Composed 1 s1; BuilderBuild 1 (args_build args);
        GenerateSoftware (args_driver args) ]
      ++ programmer_events env args.
Proof.
  unfold main, main_script, bind, lift.
  destruct (parse_args cl) as [args|e] eqn:Hp; cbn [fst snd]; [|discriminate].
  intros H. exists args. revert H. unfold programmer_events, make_command.
  main_cases env args; intros H; try discriminate H.
  all: eexists _, _; repeat split; reflexivity.
Qed.

Lemma successful_build_trace_witness :
  (main example_env load_flash_options).2 = Ok tt /\
  exists args s0 s1,
    parse_args load_flash_options = Ok args /\
    BaseSoC example_env (run_args args 0) = Ok s0 /\
    BaseSoC example_env (run_args args 1) = Ok s1 /\
    (main example_env load_flash_options).1 =
      [ Composed 0 s0; BuilderBuild 0 false;
        System (make_command example_env) (make_status example_env);
        Composed 1 s1; BuilderBuild 1 (args_build args);
        GenerateSoftware (args_driver args) ]
      ++ programmer_events example_env args.
Proof.
  assert (H : (main example_env load_flash_options).2 = Ok tt)
    by (vm_compute; reflexivity).
  split; [exact H|].
  exact (successful_build_trace example_env load_flash_options H).
Defined.

(** X5.  The firmware [make] is started at most once, as the third step of
    a build, with the builder's output directory in its command line, and
    only when the prepare composition and the prepare builder call have
    returned. *)
Theorem firmware_make_once env cl i cmd st :
  (main env cl).1 !! i = Some (System cmd st) ->
  i = 2%nat /\
  cmd = make_command env /\
  st = make_status env /\
  builder_raises env 0 = false /\
  exists args s0,
    parse_args cl = Ok args /\
    BaseSoC env (run_args args 0) = Ok s0 /\
    (main env cl).1 !! 0%nat = Some (Composed 0 s0) /\
    (main env cl).1 !! 1%nat = Some (BuilderBuild 0 false).
Proof.
  unfold main, main_script, bind, lift.
  destruct (parse_args cl) as [args|e] eqn:Hp; cbn [fst snd];
    [|by rewrite lookup_nil].
  unfold make_command. main_cases env args; intros H.
  all: repeat (destruct i as [|i]; cbn in H; try discriminate H).
  all: injection H as <- <-; repeat split; try done; eauto 10.
Qed.

Lemma firmware_make_once_witness :
  (main failing_make_env build_options).1 !! 2%nat
    = Some (System (make_command failing_make_env) 512) /\
  2%nat = 2%nat /\
  make_command failing_make_env = make_command failing_make_env /\
  512 = make_status failing_make_env /\
  builder_raises failing_make_env 0 = false.
Proof.
  assert (H : (main failing_make_env build_options).1 !! 2%nat
              = Some (System (make_command failing_make_env) 512))
    by (vm_compute; reflexivity).
  split; [exact H|].
  pose proof (firmware_make_once failing_make_env build_options 2
                (make_command failing_make_env) 512 H)
    as (H1 & H2 & H3 & H4 & _).
  exact (conj H1 (conj H2 (conj H3 H4))).
Defined.

(** ** The programmer *)

(** X6.  Whatever the command line, the programmer is given an integer
    address: the bitstream image goes to address 0, only with [--flash];
    the firmware image goes to [0x220000], only with [--flash] and
    [--flash-boot] and only when no offset was given on the command line
    (a given offset is text, and the composition has raised before). *)
Theorem flash_addresses env cl cable addr file :
  FlashImage cable addr file ∈ (main env cl).1 ->
  cl_flash cl = true /\
  cable = store_str "digilent_hs2" (cl_cable cl) /\
  ((addr = PyInt 0 /\
    file = path_join (gateware_dir env) (build_name env +:+ ".bin"))
   \/
   (addr = PyInt 0x220000 /\
    file = "firmware/firmware.fbi" /\
    cl_flash_boot cl = true /\
    cl_firmware_flash_offset cl = None)).
Proof.
  intros H. apply main_parsed in H as (args & Hp & H).
  pose proof (parse_args_Ok _ _ Hp) as Hargs.
  assert (Hoff : cl_flash_boot cl = true ->
                 succeeded (BaseSoC env (run_args args 1)) = true ->
                 cl_firmware_flash_offset cl = None).
  { intros Hfb Hok. destruct (cl_firmware_flash_offset cl) as [text|] eqn:Ho;
      [|done].
    destruct (supplied_offset_never_composes env cl text args 1 Hp Hfb Ho)
      as [_ Hno]. congruence. }
  revert H. main_cases_eqn env args; intros H; trace_cases H.
  all: injection H as -> -> ->.
  all: rewrite Hargs in Hflash; cbn in Hflash.
  all: split; [exact Hflash|]; split; [by rewrite Hargs|].
  all: first [ left; by split
             | right;
               rewrite Hargs in Hfboot; cbn in Hfboot;
               specialize (Hoff Hfboot eq_refl);
               rewrite Hargs; cbn; rewrite Hoff; by repeat split ].
Qed.

Lemma flash_addresses_witness :
  FlashImage "digilent_hs2" (PyInt 0)
      (path_join (gateware_dir example_env) (build_name example_env +:+ ".bin"))
    ∈ (main example_env load_flash_options).1 /\
  cl_flash load_flash_options = true /\
  "digilent_hs2" = store_str "digilent_hs2" (cl_cable load_flash_options).
Proof.
  assert (H : FlashImage "digilent_hs2" (PyInt 0)
                (path_join (gateware_dir example_env)
                   (build_name example_env +:+ ".bin"))
              ∈ (main example_env load_flash_options).1).
  { apply list_elem_of_lookup. exists 7%nat. vm_compute. reflexivity. }
  split; [exact H|].
  destruct (flash_addresses example_env load_flash_options _ _ _ H)
    as (Hfl & Hc & _).
  exact (conj Hfl Hc).
Defined.


(** X7.  The bitstream is loaded only with [--load], from
    [<gateware_dir>/<build_name>.bit], through the cable of [--cable]
    ([digilent_hs2] when absent), and only once both builder calls have
    returned and the driver generator has not raised. *)
Theorem load_bitstream_event env cl cable file :
  LoadBitstream cable file ∈ (main env cl).1 ->
  cl_load cl = true /\
  cable = store_str "digilent_hs2" (cl_cable cl) /\
  file = path_join (gateware_dir env) (build_name env +:+ ".bit") /\
  builder_raises env 0 = false /\
  builder_raises env 1 = false /\
  driver_raises env = false /\
  GenerateSoftware (cl_driver cl) ∈ (main env cl).1.
Proof.
  intros H.
  assert (Hg : GenerateSoftware (cl_driver cl) ∈ (main env cl).1 /\
               exists args, parse_args cl = Ok args /\
               LoadBitstream cable file ∈ (main_body env args []).1).
  { revert H. unfold main, main_script, bind, lift.
    destruct (parse_args cl) as [args|e] eqn:Hp; cbn [fst snd].
    - intros H. split; [|eauto]. revert H.
      pose proof (parse_args_Ok _ _ Hp) as Hargs.
      replace (cl_driver cl) with (args_driver args) by (by rewrite Hargs).
      clear Hargs.
      main_cases env args; intros H; trace_cases H.
      all: apply list_elem_of_lookup; exists 5%nat; reflexivity.
    - intros H. by apply elem_of_nil in H. }
  destruct Hg as (Hg & args & Hp & H'). clear H.
  pose proof (parse_args_Ok _ _ Hp) as Hargs.
  revert H'. main_cases_eqn env args; intros H; trace_cases H.
  all: injection H as -> ->.
  all: rewrite Hargs in Hload; cbn in Hload.
  all: rewrite Hargs; cbn; by repeat split.
Qed.

Lemma load_bitstream_event_witness :
  LoadBitstream "digilent_hs2"
      (path_join (gateware_dir example_env) (build_name example_env +:+ ".bit"))
    ∈ (main example_env load_flash_options).1 /\
  cl_load load_flash_options = true /\
  GenerateSoftware (cl_driver load_flash_options)
    ∈ (main example_env load_flash_options).1.
Proof.
  assert (H : LoadBitstream "digilent_hs2"
                (path_join (gateware_dir example_env)
                   (build_name example_env +:+ ".bit"))
              ∈ (main example_env load_flash_options).1).
  { apply list_elem_of_lookup. exists 6%nat. vm_compute. reflexivity. }
  split; [exact H|].
  pose proof (load_bitstream_event example_env load_flash_options _ _ H)
    as (H1 & _ & _ & _ & _ & _ & H2).
  exact (conj H1 H2).
Defined.

(** ** The firmware file *)

(** X8.  Without [--flash-boot], when ["firmware/firmware.bin"] cannot be
    read in the finalize run, the build has composed the prepare system,
    called its builder and started the firmware [make]; it then ends with
    the exception of the read, without a second builder call. *)
Theorem unreadable_firmware_aborts_finalize env cl args s0 e :
  parse_args cl = Ok args ->
  cl_flash_boot cl = false ->
  BaseSoC env (run_args args 0) = Ok s0 ->
  builder_raises env 0 = false ->
  get_mem_data env "firmware/firmware.bin" = Raise e ->
  main env cl =
    ([ Composed 0 s0; BuilderBuild 0 false;
       System (make_command env) (make_status env) ],
     Raise e).
Proof.
  intros Hp Hfb H0 Hb0 Hget.
  assert (H1 : BaseSoC env (run_args args 1) = Raise e).
  { pose proof (parse_args_Ok _ _ Hp) as Hargs.
    apply BaseSoC_Ok in H0 as (pf & _ & _ & _ & Hpf & _).
    unfold BaseSoC, getitem, main_ram_contents.
    cbn [run_args board cpu_firmware flash_boot Nat.eqb] in *.
    rewrite Hpf. cbn [py_bind].
    rewrite Hargs. cbn [args_flash_boot]. rewrite Hfb, Hget. reflexivity. }
  unfold main, main_script, bind, lift. rewrite Hp. cbn [fst snd].
  unfold main_body, build_runs, build_run, builder_build, os_system,
    bind, lift, emit, raise_if, ret, make_command.
  cbn [seq Nat.eqb andb]. rewrite H0, Hb0, H1. reflexivity.
Qed.

Lemma unreadable_firmware_aborts_finalize_witness :
  parse_args build_options = Ok build_namespace /\
  cl_flash_boot build_options = false /\
  BaseSoC no_firmware_env (run_args build_namespace 0)
    = Ok (composed (BaseSoC no_firmware_env (run_args build_namespace 0))) /\
  builder_raises no_firmware_env 0 = false /\
  get_mem_data no_firmware_env "firmware/firmware.bin"
    = Raise (OSError "firmware/firmware.bin") /\
  (main no_firmware_env build_options).2 = Raise (OSError "firmware/firmware.bin").
Proof.
  assert (H0 : BaseSoC no_firmware_env (run_args build_namespace 0)
               = Ok (composed (BaseSoC no_firmware_env (run_args build_namespace 0))))
    by (vm_compute; reflexivity).
  split; [reflexivity|]. split; [reflexivity|]. split; [exact H0|].
  split; [reflexivity|]. split; [reflexivity|].
  exact (f_equal snd
           (unreadable_firmware_aborts_finalize no_firmware_env build_options
              build_namespace _ (OSError "firmware/firmware.bin")
              eq_refl eq_refl H0 eq_refl eq_refl)).
Defined.

(** ** The two runs of a build *)

(** X9.  The prepare and the finalize composition of one build agree on
    platform, address map, regions, peripheral indices, modules, slaves,
    clock domains, timing exceptions and connections.  The prepare system
    has no initial contents for [main_ram] and no [CONFIG_MAIN_RAM_INIT]
    constant; the finalize system has the constants of the prepare system
    and, when its [main_ram] contents are not empty, [CONFIG_MAIN_RAM_INIT]
    as well.  With [--flash-boot] the two are the same system. *)
Theorem runs_compose_same_memory_map env cl s0 s1 :
  Composed 0 s0 ∈ (main env cl).1 ->
  Composed 1 s1 ∈ (main env cl).1 ->
  s1 = mkSoC (platform s0) (mem_map s0) (regions s0)
         (match main_ram_init s1 with
          | [] => constants s0
          | _ :: _ => <["CONFIG_MAIN_RAM_INIT" := 1]> (constants s0)
          end)
         (csr_locs s0) (modules s0) (slaves s0) (main_ram_init s1)
         (cpu_debug s0) (clock_domains s0) (period_constraints s0)
         (false_paths s0) (pre_placement_commands s0) (comb s0) /\
  main_ram_init s0 = [] /\
  constants s0 !! "CONFIG_MAIN_RAM_INIT" = None /\
  (cl_flash_boot cl = true -> s1 = s0).
Proof.
  intros H0 H1.
  apply main_composed in H0 as (args & Hp & _ & H0).
  apply main_composed in H1 as (args' & Hp' & _ & H1).
  rewrite Hp in Hp'. injection Hp' as <-.
  pose proof (parse_args_Ok _ _ Hp) as Hargs.
  assert (Hinit0 : main_ram_init s0 = []).
  { pose proof (BaseSoC_main_ram_init _ _ _ H0 eq_refl) as Hi.
    unfold main_ram_contents in Hi. cbn in Hi. congruence. }
  pose proof (BaseSoC_main_ram_init _ _ _ H1 eq_refl) as Hinit1.
  unfold main_ram_contents in Hinit1.
  pose proof (BaseSoC_constants _ _ _ H0) as Hc0.
  pose proof (BaseSoC_constants _ _ _ H1) as Hc1.
  cbn [run_args board with_cpu with_jtagbone with_bscan flash_boot
       cpu_firmware firmware_flash_offset BaseSoC_defaults Nat.eqb]
    in Hinit1, Hc0, Hc1.
  rewrite Hinit0 in Hc0. cbn [init_constants] in Hc0.
  assert (Hconst : constants s1 =
                   match main_ram_init s1 with
                   | [] => constants s0
                   | _ :: _ => <["CONFIG_MAIN_RAM_INIT" := 1]> (constants s0)
                   end /\
                   constants s0 !! "CONFIG_MAIN_RAM_INIT" = None).
  { destruct (args_flash_boot args).
    - injection Hinit1 as Hinit1. rewrite <- Hinit1 in *.
      cbn [init_constants] in Hc1.
      destruct Hc0 as (off & Ho & ->). destruct Hc1 as (off' & Ho' & ->).
      rewrite Ho in Ho'. injection Ho' as <-. split; [done|].
      rewrite lookup_insert_ne by done.
      rewrite declared_spiflash_lookup by not_spiflash.
      apply lookup_empty.
    - destruct Hc0 as (o & Ho & ->). destruct Hc1 as (o' & Ho' & ->).
      rewrite Ho in Ho'. injection Ho' as <-. split.
      + destruct (main_ram_init s1); cbn [init_constants]; [done|].
        by apply insert_insert_ne.
      + rewrite lookup_insert_ne by done. apply lookup_empty. }
  destruct Hconst as [Hconst Hflag].
  assert (Heq : s1 = mkSoC (platform s0) (mem_map s0) (regions s0)
         (match main_ram_init s1 with
          | [] => constants s0
          | _ :: _ => <["CONFIG_MAIN_RAM_INIT" := 1]> (constants s0)
          end)
         (csr_locs s0) (modules s0) (slaves s0) (main_ram_init s1)
         (cpu_debug s0) (clock_domains s0) (period_constraints s0)
         (false_paths s0) (pre_placement_commands s0) (comb s0)).
  { rewrite <- Hconst. clear Hconst Hflag Hc0 Hc1 Hinit1.
    pose proof (BaseSoC_core_fields _ _ _ H0) as (Hpf0 & Hmm0 & Hdbg0).
    pose proof (BaseSoC_core_fields _ _ _ H1) as (Hpf1 & Hmm1 & Hdbg1).
    pose proof (BaseSoC_pure_fields _ _ _ H0)
      as (Hcsr0 & Hsl0 & Hcd0 & Hpc0 & Hfp0 & Hpp0 & rx & tx & Hrx & Htx & Hcomb0).
    pose proof (BaseSoC_pure_fields _ _ _ H1)
      as (Hcsr1 & Hsl1 & Hcd1 & Hpc1 & Hfp1 & Hpp1 & rx' & tx' & Hrx' & Htx' & Hcomb1).
    rewrite Hrx in Hrx'. injection Hrx' as <-.
    rewrite Htx in Htx'. injection Htx' as <-.
    pose proof (BaseSoC_modules _ _ _ H0) as Hmod0.
    pose proof (BaseSoC_modules _ _ _ H1) as Hmod1.
    pose proof (BaseSoC_regions _ _ _ H0) as Hr0.
    pose proof (BaseSoC_regions _ _ _ H1) as Hr1.
    assert (Hpure : pure_sections (run_args args 1) = pure_sections (run_args args 0))
      by reflexivity.
    assert (Hsl : expected_slaves env (run_args args 1)
                  = expected_slaves env (run_args args 0))
      by reflexivity.
    rewrite Hpure, Hsl in *.
    cbn [run_args board with_cpu with_jtagbone with_bscan flash_boot
         firmware_flash_offset BaseSoC_defaults] in *.
    assert (Hregs : regions s1 = regions s0).
    { destruct (args_flash_boot args).
      - destruct Hr0 as (off & Ho & _ & _ & ->).
        destruct Hr1 as (off' & Ho' & _ & _ & ->).
        rewrite Ho in Ho'. by injection Ho' as <-.
      - congruence. }
    destruct s0, s1. cbn in *. f_equal; congruence. }
  split; [exact Heq|]. split; [exact Hinit0|]. split; [exact Hflag|].
  intros Hfb. rewrite Heq.
  rewrite Hargs in Hinit1. cbn [args_flash_boot] in Hinit1.
  rewrite Hfb in Hinit1. injection Hinit1 as <-.
  rewrite <- Hinit0. by destruct s0.
Qed.

Lemma runs_compose_same_memory_map_witness :
  Composed 0 (composed (BaseSoC example_env (run_args build_namespace 0)))
    ∈ (main example_env build_options).1 /\
  Composed 1 finalize_soc ∈ (main example_env build_options).1 /\
  regions finalize_soc
    = regions (composed (BaseSoC example_env (run_args build_namespace 0))) /\
  constants (composed (BaseSoC example_env (run_args build_namespace 0)))
    !! "CONFIG_MAIN_RAM_INIT" = None.
Proof.
  assert (H0 : Composed 0 (composed (BaseSoC example_env (run_args build_namespace 0)))
               ∈ (main example_env build_options).1).
  { apply list_elem_of_lookup. exists 0%nat. vm_compute. reflexivity. }
  assert (H1 : Composed 1 finalize_soc ∈ (main example_env build_options).1).
  { apply list_elem_of_lookup. exists 3%nat. vm_compute. reflexivity. }
  split; [exact H0|]. split; [exact H1|].
  pose proof (runs_compose_same_memory_map example_env build_options _ _ H0 H1)
    as (Heq & _ & Hflag & _).
  exact (conj (f_equal regions Heq) Hflag).
Defined.

(** ** Fields of the stream connections *)

(** X10.  In each of the two stream connections of a composed system, the
    fields wired are the producer's fields that are in the [keep] set, in
    the producer's order; each of them is declared by the consumer, and
    [first], which every endpoint declares, is never wired. *)
Theorem connected_fields_kept env a soc l :
  BaseSoC env a = Ok soc ->
  l ∈ links soc ->
  connected l = filter (fun f => f ∈ keep l) (ep_fields (producer l)) /\
  (forall f, f ∈ connected l -> f ∈ ep_fields (consumer l)) /\
  "first" ∈ ep_fields (producer l) /\
  "first" ∉ connected l.
Proof.
  intros H Hl.
  apply BaseSoC_links in H as (rx & tx & Hrx & Htx & Hlinks).
  rewrite Hlinks in Hl.
  assert (Hc : exists p c, connect p c dma_keep = Ok l).
  { apply elem_of_cons in Hl as [-> | Hl]; [eauto|].
    apply elem_of_cons in Hl as [-> | Hl]; [eauto|].
    by apply elem_of_nil in Hl. }
  destruct Hc as (p & c & Hc). clear Hrx Htx Hlinks Hl.
  apply connect_Ok in Hc as (Hp & Hcn & Hk & Hfilter & Hcons).
  rewrite Hp, Hcn, Hk.
  split; [exact Hfilter|]. split; [exact Hcons|]. split.
  - unfold ep_fields. apply elem_of_app. left.
    refine (bool_decide_unpack _ _). vm_compute. exact I.
  - rewrite Hfilter. intros Hf.
    apply list_elem_of_filter in Hf as [Hkeep _].
    revert Hkeep. refine (bool_decide_unpack _ _). vm_compute. exact I.
Qed.

Lemma connected_fields_kept_witness :
  BaseSoC example_env BaseSoC_defaults = Ok default_soc /\
  (forall l, l ∈ links default_soc ->
     connected l = filter (fun f => f ∈ keep l) (ep_fields (producer l)) /\
     "first" ∉ connected l).
Proof.
  assert (H : BaseSoC example_env BaseSoC_defaults = Ok default_soc)
    by (vm_compute; reflexivity).
  split; [exact H|]. intros l Hl.
  destruct (connected_fields_kept example_env BaseSoC_defaults default_soc l H Hl)
    as (H1 & _ & _ & H2).
  exact (conj H1 H2).
Defined.

(** ** The JTAG clock *)

(** X11.  A composed system declares the [jtag] clock domain, its
    [1e9/20e6] ns period and its false path to the system clock exactly
    when [with_jtagbone] or [with_bscan] holds; the twelve
    [set_clock_groups] commands, four of which name [jtag_clk], are
    appended in every case. *)
Theorem jtag_clock_declared_iff env a soc :
  BaseSoC env a = Ok soc ->
  (jtag_domain ∈ clock_domains soc <-> with_jtagbone a || with_bscan a = true) /\
  (mkPeriod "jtag_clk" 1000000000 20000000 ∈ period_constraints soc
     <-> with_jtagbone a || with_bscan a = true) /\
  (("jtag_clk", "sys_clk") ∈ false_paths soc
     <-> with_jtagbone a || with_bscan a = true) /\
  pre_placement_commands soc = flat_map clock_group_commands (seq 0 4) /\
  length (filter (fun cmd => contains "jtag_clk" cmd = true)
            (pre_placement_commands soc)) = 4%nat.
Proof.
  intros H.
  apply BaseSoC_pure_fields in H as (_ & _ & Hcd & Hpc & Hfp & Hpp & _).
  rewrite Hcd, Hpc, Hfp, Hpp. clear Hcd Hpc Hfp Hpp.
  unfold pure_sections, peripheral_section, debug_section.
  rewrite fold_append_pre_placement.
  destruct (with_jtagbone a), (with_bscan a); soc_simpl; cbn [orb].
  all: repeat match goal with |- _ /\ _ => split end.
  all: try (vm_compute; reflexivity).
  all: split; intros Hx; try reflexivity; try discriminate Hx.
  all: try (apply list_elem_of_In; cbn;
            repeat (first [left; reflexivity | right])).
  all: apply list_elem_of_In in Hx; cbn in Hx;
       repeat (destruct Hx as [Hx | Hx]; [discriminate Hx|]); destruct Hx.
Qed.

Lemma jtag_clock_declared_iff_witness :
  BaseSoC example_env BaseSoC_defaults = Ok default_soc /\
  jtag_domain ∈ clock_domains default_soc /\
  length (filter (fun cmd => contains "jtag_clk" cmd = true)
            (pre_placement_commands default_soc)) = 4%nat.
Proof.
  assert (H : BaseSoC example_env BaseSoC_defaults = Ok default_soc)
    by (vm_compute; reflexivity).
  split; [exact H|].
  pose proof (jtag_clock_declared_iff example_env BaseSoC_defaults default_soc H)
    as (Hd & _ & _ & _ & Hn).
  exact (conj (proj2 Hd eq_refl) Hn).
Defined.

(** ** Regions and slaves *)

(** X12.  The composition only adds regions: every region that
    [SoCCore.__init__] committed is in the composed system unchanged, the
    LimeTop slave region is at [0x3000000] with size [0x1000], and any
    other region of the composed system is [main_ram], [spiflash] or
    [flash].  Its bus slaves are those of the core, [main_ram] with a CPU,
    [spiflash] with [flash_boot], and last [lime_top_mmap]; the linker
    region [flash] is not a slave. *)
Theorem composition_only_adds_regions env a soc :
  BaseSoC env a = Ok soc ->
  (forall n r, core_regions env (with_cpu a) !! n = Some r ->
     regions soc !! n = Some r) /\
  regions soc !! "lime_top_mmap" = Some (mkRegion 0x3000000 0x1000 false) /\
  slaves soc = expected_slaves env a ++ ["lime_top_mmap"] /\
  (forall n, is_Some (regions soc !! n) ->
     is_Some (core_regions env (with_cpu a) !! n) \/
     n ∈ ["main_ram"; "spiflash"; "flash"; "lime_top_mmap"]).
Proof.
  intros H.
  pose proof (BaseSoC_pure_fields _ _ _ H) as (_ & Hsl & _).
  pose proof (BaseSoC_fresh_names _ _ _ H) as (Hlime & Hmain).
  pose proof (BaseSoC_regions _ _ _ H) as Hregs.
  set (core := core_regions env (with_cpu a)) in *.
  set (R := base_regions env (with_cpu a)) in *.
  assert (HR : forall n,
             (forall r, core !! n = Some r -> R !! n = Some r) /\
             (core !! n = None -> n = "main_ram" \/ R !! n = None)).
  { intros n. subst core R. unfold base_regions. destruct (with_cpu a).
    - destruct Hmain as (Hfr & o & ->); [done|].
      destruct (decide (n = "main_ram")) as [-> | Hn].
      + split; [congruence | auto].
      + rewrite lookup_insert_ne by done. auto.
    - auto. }
  assert (Hfinal : exists R',
             regions soc = <["lime_top_mmap" := mkRegion 0x3000000 0x1000 false]> R' /\
             (forall n r, R !! n = Some r -> R' !! n = Some r) /\
             (forall n, R !! n = None -> n = "spiflash" \/ n = "flash" \/ R' !! n = None)).
  { destruct (flash_boot a).
    - destruct Hregs as (off & _ & Hsp & Hfl & ->).
      eexists. split; [reflexivity|]. split.
      + intros n r Hn.
        destruct (decide (n = "flash")) as [-> | ?]; [congruence|].
        destruct (decide (n = "spiflash")) as [-> | ?]; [congruence|].
        by rewrite !lookup_insert_ne.
      + intros n Hn.
        destruct (decide (n = "flash")) as [-> | ?]; [auto|].
        destruct (decide (n = "spiflash")) as [-> | ?]; [auto|].
        right; right. by rewrite !lookup_insert_ne.
    - exists R. auto. }
  destruct Hfinal as (R' & HregsR & Hkeep & Hnew).
  split; [|split; [|split]].
  - intros n r Hn. rewrite HregsR.
    destruct (decide (n = "lime_top_mmap")) as [-> | ?]; [congruence|].
    rewrite lookup_insert_ne by done. by apply Hkeep, HR.
  - rewrite HregsR. apply lookup_insert_eq.
  - exact Hsl.
  - intros n Hn. rewrite HregsR in Hn.
    destruct (decide (n = "lime_top_mmap")) as [-> | Hne].
    { right. refine (bool_decide_unpack _ _). vm_compute. exact I. }
    rewrite lookup_insert_ne in Hn by done.
    destruct (core !! n) as [r|] eqn:Hcore; [left; eauto|].
    right. apply HR in Hcore as [-> | HRn].
    { refine (bool_decide_unpack _ _). vm_compute. exact I. }
    apply Hnew in HRn as [-> | [-> | HRn]].
    + refine (bool_decide_unpack _ _). vm_compute. exact I.
    + refine (bool_decide_unpack _ _). vm_compute. exact I.
    + rewrite HRn in Hn. by destruct Hn.
Qed.

Lemma composition_only_adds_regions_witness :
  BaseSoC example_env BaseSoC_defaults = Ok default_soc /\
  core_regions example_env (with_cpu BaseSoC_defaults) !! "rom"
    = Some (mkRegion 0 0x8000 false) /\
  regions default_soc !! "rom" = Some (mkRegion 0 0x8000 false).
Proof.
  assert (H : BaseSoC example_env BaseSoC_defaults = Ok default_soc)
    by (vm_compute; reflexivity).
  assert (Hc : core_regions example_env (with_cpu BaseSoC_defaults) !! "rom"
               = Some (mkRegion 0 0x8000 false))
    by (vm_compute; reflexivity).
  split; [exact H|]. split; [exact Hc|].
  exact (proj1 (composition_only_adds_regions example_env BaseSoC_defaults
                  default_soc H) "rom" _ Hc).
Defined.
